(** * The move-only checker pass (lib/SILOptimizer/Mandatory/MoveOnlyChecker.cpp)

    A shallow embedding of the per-function driver [MoveOnlyCheckerPass::run]
    and of the two methods [MoveOnlyChecker::checkObjects] and
    [MoveOnlyChecker::checkAddresses], with the properties of the driver
    proved for every implementation of the components it calls. *)

From Stdlib Require Import List String Bool NArith.
Import ListNotations.
Local Open Scope string_scope.
Local Open Scope list_scope.

(** ** The part of SIL the pass looks at *)

Module SILStage.
Inductive t := Raw | Canonical | Lowered.

Definition eqb (a b : t) : bool :=
  match a, b with
  | Raw, Raw | Canonical, Canonical | Lowered, Lowered => true
  | _, _ => false
  end.
End SILStage.

Module SILLinkage.
Inductive t :=
| Public | PublicNonABI | Package | PackageNonABI | Hidden
| Shared | Private
| PublicExternal | PackageExternal | HiddenExternal.

Definition eqb (a b : t) : bool :=
  match a, b with
  | Public, Public | PublicNonABI, PublicNonABI | Package, Package
  | PackageNonABI, PackageNonABI | Hidden, Hidden | Shared, Shared
  | Private, Private | PublicExternal, PublicExternal
  | PackageExternal, PackageExternal | HiddenExternal, HiddenExternal => true
  | _, _ => false
  end.
End SILLinkage.

(** The two invalidation kinds the pass hands to [invalidateAnalysis]. *)
Module InvalidationKind.
Inductive t := Instructions | FunctionBody.
End InvalidationKind.

Definition SILLocation := N.

Inductive SILValueCategory := Object | Address.

(** The instructions the pass and the examples name; a marker introduces
    an object or an address. *)
Inductive SILInstructionKind :=
| MarkUnresolvedNonCopyableValueInst (category : SILValueCategory)
| CopyValueInst
| ExplicitCopyValueInst
| ReturnInst
| UnreachableInst.

Record SILInstruction := {
  getKind : SILInstructionKind;
  getLoc : SILLocation
}.

Record SILBasicBlock := {
  getArguments : list SILValueCategory;
  instructions : list SILInstruction
}.

Record ASTContext := {
  supportsMoveOnlyTypes : bool
}.

Record SILModule := {
  getASTContext : ASTContext;
  getStage : SILStage.t;
  isWholeModule : bool
}.

Record SILFunction := {
  getName : string;
  getModule : SILModule;
  blocks : list SILBasicBlock;
  getSemanticsAttrs : list string;
  getLinkage : SILLinkage.t;
  getRefCount : N;
  wasDeserializedCanonical : bool
}.

Definition hasSemanticsAttr (fn : SILFunction) (attr : string) : bool :=
  existsb (String.eqb attr) (getSemanticsAttrs fn).

Definition setLinkage (fn : SILFunction) (l : SILLinkage.t) : SILFunction :=
  {| getName := getName fn;
     getModule := getModule fn;
     blocks := blocks fn;
     getSemanticsAttrs := getSemanticsAttrs fn;
     getLinkage := l;
     getRefCount := getRefCount fn;
     wasDeserializedCanonical := wasDeserializedCanonical fn |}.

Definition setBlocks (fn : SILFunction) (bs : list SILBasicBlock) : SILFunction :=
  {| getName := getName fn;
     getModule := getModule fn;
     blocks := bs;
     getSemanticsAttrs := getSemanticsAttrs fn;
     getLinkage := getLinkage fn;
     getRefCount := getRefCount fn;
     wasDeserializedCanonical := wasDeserializedCanonical fn |}.

(** [SILBasicBlock::eraseAllInstructions]: the block and its arguments stay. *)
Definition eraseAllInstructions (bb : SILBasicBlock) : SILBasicBlock :=
  {| getArguments := getArguments bb; instructions := [] |}.

(** [SILBuilder b(&*bb); b.createUnreachable(loc)]: a builder made from a
    block inserts at the end of that block. *)
Definition createUnreachable (bb : SILBasicBlock) (loc : SILLocation)
  : SILBasicBlock :=
  {| getArguments := getArguments bb;
     instructions :=
       instructions bb ++
       [ {| getKind := UnreachableInst; getLoc := loc |} ] |}.

(** The loop of [run] that erases every block after the entry block: each
    turn takes [thisBB] out of the function and moves on to the next one.
    The result is what is left of the blocks after the entry. *)
Fixpoint eraseNonEntryBlocks (nextBB : list SILBasicBlock)
  : list SILBasicBlock :=
  match nextBB with
  | [] => []
  | _thisBB :: nextBB' => eraseNonEntryBlocks nextBB'
  end.

(** ** Diagnostics *)

Definition Diagnostic := string.

(** Modelled from the spec: the [DiagnosticEmitter] of MoveOnlyDiagnostics.h,
    which is not part of the source tree.  It accumulates the diagnostics of
    one function without deduplication, in discovery order, and exposes
    their count and whether the count is positive. *)
Record DiagnosticEmitter := {
  recorded : list Diagnostic
}.

Definition newDiagnosticEmitter : DiagnosticEmitter := {| recorded := [] |}.

Definition recordDiagnostic (d : Diagnostic) (e : DiagnosticEmitter)
  : DiagnosticEmitter :=
  {| recorded := recorded e ++ [d] |}.

Definition getDiagnosticCount (e : DiagnosticEmitter) : N :=
  N.of_nat (List.length (recorded e)).

Definition emittedDiagnostic (e : DiagnosticEmitter) : bool :=
  (0 <? getDiagnosticCount e)%N.

(** The worklist [moveIntroducersToProcess] of one value class. *)
Definition Worklist := list SILInstruction.

Definition empty (w : Worklist) : bool :=
  match w with [] => true | _ :: _ => false end.

(** ** The components the driver calls

    None of them is defined in MoveOnlyChecker.cpp: the two candidate
    searches, the two checking engines, the sweep for missed copies, the
    cleanup, the linkage predicate, the two semantics-attribute names and the
    analyses of the pass manager.  The driver is embedded over an arbitrary
    implementation of them.  An argument the C++ passes by pointer or by
    reference comes back in the result. *)
Class Collaborators := {
  DominanceInfo : Type;
  PostOrderAnalysis : Type;
  IntervalMapAllocator : Type;

  MOVEONLY_DELETE_IF_UNUSED : string;
  NO_MOVEONLY_DIAGNOSTICS : string;

  isPossiblyUsedExternally : SILLinkage.t -> bool -> bool;

  getDominanceInfo : SILFunction -> DominanceInfo;
  getPostOrderAnalysis : PostOrderAnalysis;
  newAllocator : IntervalMapAllocator;

  searchForCandidateObjectMarkUnresolvedNonCopyableValueInsts :
    SILFunction -> DiagnosticEmitter ->
    bool * Worklist * SILFunction * DiagnosticEmitter;

  searchForCandidateAddressMarkUnresolvedNonCopyableValueInsts :
    SILFunction -> DiagnosticEmitter ->
    Worklist * SILFunction * DiagnosticEmitter;

  MoveOnlyObjectChecker_check :
    DominanceInfo -> PostOrderAnalysis -> Worklist ->
    SILFunction -> DiagnosticEmitter -> IntervalMapAllocator ->
    bool * SILFunction * DiagnosticEmitter * IntervalMapAllocator;

  MoveOnlyAddressChecker_check :
    DominanceInfo -> PostOrderAnalysis -> Worklist ->
    SILFunction -> DiagnosticEmitter -> IntervalMapAllocator ->
    bool * SILFunction * DiagnosticEmitter * IntervalMapAllocator;

  emitCheckerMissedCopyOfNonCopyableTypeErrors :
    SILFunction -> DiagnosticEmitter -> SILFunction * DiagnosticEmitter;

  cleanupNonCopyableCopiesAfterEmittingDiagnostic :
    SILFunction -> bool * SILFunction
}.

(** ** What one invocation of the pass reads and writes *)

(** The components called, in call order. *)
Inductive Call :=
| SearchObjects
| CheckObjects
| SearchAddresses
| CheckAddresses
| EmitMissedCopyErrors
| CleanupCopies.

Definition Call_eqb (a b : Call) : bool :=
  match a, b with
  | SearchObjects, SearchObjects | CheckObjects, CheckObjects
  | SearchAddresses, SearchAddresses | CheckAddresses, CheckAddresses
  | EmitMissedCopyErrors, EmitMissedCopyErrors
  | CleanupCopies, CleanupCopies => true
  | _, _ => false
  end.

Definition called (c : Call) (cs : list Call) : bool := existsb (Call_eqb c) cs.

(** [function] is the object every [fn] pointer of the pass points to;
    [diagnostics] is the side channel to the compiler's diagnostic sink;
    [invalidated] is the notification given to [invalidateAnalysis], the way
    the pass reports a change; [dbgs] is the stream of [llvm::dbgs()], which
    [LLVM_DEBUG] writes only under [DebugFlag]. *)
Record PassState := {
  function : SILFunction;
  diagnostics : list Diagnostic;
  invalidated : option InvalidationKind.t;
  calls : list Call;
  DebugFlag : bool;
  dbgs : list string
}.

Definition initialState (debug : bool) (fn : SILFunction) : PassState :=
  {| function := fn; diagnostics := []; invalidated := None; calls := [];
     DebugFlag := debug; dbgs := [] |}.

Definition setFunction (fn : SILFunction) (st : PassState) : PassState :=
  {| function := fn; diagnostics := diagnostics st;
     invalidated := invalidated st; calls := calls st;
     DebugFlag := DebugFlag st; dbgs := dbgs st |}.

Definition setDiagnostics (ds : list Diagnostic) (st : PassState) : PassState :=
  {| function := function st; diagnostics := ds;
     invalidated := invalidated st; calls := calls st;
     DebugFlag := DebugFlag st; dbgs := dbgs st |}.

Definition invalidateAnalysis (k : InvalidationKind.t) (st : PassState)
  : PassState :=
  {| function := function st; diagnostics := diagnostics st;
     invalidated := Some k; calls := calls st;
     DebugFlag := DebugFlag st; dbgs := dbgs st |}.

Definition recordCall (c : Call) (st : PassState) : PassState :=
  {| function := function st; diagnostics := diagnostics st;
     invalidated := invalidated st; calls := calls st ++ [c];
     DebugFlag := DebugFlag st; dbgs := dbgs st |}.

(** [LLVM_DEBUG(llvm::dbgs() << msg)]: the message is built and written only
    when debugging output is switched on. *)
Definition LLVM_DEBUG (msg : unit -> string) (st : PassState) : PassState :=
  if DebugFlag st then
    {| function := function st; diagnostics := diagnostics st;
       invalidated := invalidated st; calls := calls st;
       DebugFlag := DebugFlag st; dbgs := dbgs st ++ [msg tt] |}
  else st.

(** How [run] ends: by returning, by the failure of its [assert], which is
    embedded as the check it states, or by reading through an end iterator
    (a function without blocks, or an entry block without instructions, on
    the deletion path). *)
Inductive Outcome :=
| Returned (st : PassState)
| AssertionFailure (msg : string) (st : PassState)
| UndefinedBehavior.

Definition stateOf (o : Outcome) : option PassState :=
  match o with
  | Returned st => Some st
  | AssertionFailure _ st => Some st
  | UndefinedBehavior => None
  end.

(** The components an outcome shows to have been called, the diagnostics it
    shows to have been emitted and the change it shows to have been reported. *)
Definition callsOf (o : Outcome) : list Call :=
  match stateOf o with Some st => calls st | None => [] end.

Definition diagnosticsOf (o : Outcome) : list Diagnostic :=
  match stateOf o with Some st => diagnostics st | None => [] end.

Definition reportedChange (st : PassState) : bool :=
  match invalidated st with Some _ => true | None => false end.

Definition newline : string := String (Ascii.ascii_of_nat 10) EmptyString.

(** ** A state monad for the checking code *)

Definition State (S A : Type) : Type := S -> A * S.

Definition ret {S A} (a : A) : State S A := fun s => (a, s).

Definition bind {S A B} (m : State S A) (k : A -> State S B) : State S B :=
  fun s => let (a, s') := m s in k a s'.

Definition gets {S A} (f : S -> A) : State S A := fun s => (f s, s).

Definition modify {S} (f : S -> S) : State S unit := fun s => (tt, f s).

Declare Scope state_scope.
Delimit Scope state_scope with state.
Notation "x <- m ;; k" := (bind m (fun x => k))
  (at level 61, m at next level, right associativity) : state_scope.
Notation "m ;; k" := (bind m (fun _ => k))
  (at level 61, right associativity) : state_scope.

Section Checker.

Context {C : Collaborators}.

(** [struct MoveOnlyChecker].  Its [fn] member points to the function of the
    pass state, which is where the embedding keeps that one object. *)
Record MoveOnlyChecker := {
  diagnosticEmitter : DiagnosticEmitter;
  domTree : DominanceInfo;
  poa : PostOrderAnalysis;
  madeChange : bool;
  allocator : IntervalMapAllocator
}.

Definition newMoveOnlyChecker (domTree : DominanceInfo) (poa : PostOrderAnalysis)
  : MoveOnlyChecker :=
  {| diagnosticEmitter := newDiagnosticEmitter;
     domTree := domTree;
     poa := poa;
     madeChange := false;
     allocator := newAllocator |}.

Definition Checking (A : Type) : Type := State (MoveOnlyChecker * PassState) A.

Definition orMadeChange (b : bool) : Checking unit :=
  modify (fun '(c, st) =>
    ({| diagnosticEmitter := diagnosticEmitter c;
        domTree := domTree c;
        poa := poa c;
        madeChange := madeChange c || b;
        allocator := allocator c |}, st)).

Definition debug (msg : MoveOnlyChecker -> string) : Checking unit :=
  modify (fun '(c, st) => (c, LLVM_DEBUG (fun _ => msg c) st)).

Definition diagnosticCount : Checking N :=
  gets (fun '(c, _) => getDiagnosticCount (diagnosticEmitter c)).

(** The calls to the components: each takes the function and the members of
    the checker it is given, and stores back what it may have changed. *)

Definition searchObjects : Checking (bool * Worklist) :=
  fun '(c, st) =>
    let '(changed, moveIntroducersToProcess, fn', e') :=
      searchForCandidateObjectMarkUnresolvedNonCopyableValueInsts
        (function st) (diagnosticEmitter c) in
    ((changed, moveIntroducersToProcess),
     ({| diagnosticEmitter := e'; domTree := domTree c; poa := poa c;
         madeChange := madeChange c; allocator := allocator c |},
      recordCall SearchObjects (setFunction fn' st))).

Definition searchAddresses : Checking Worklist :=
  fun '(c, st) =>
    let '(moveIntroducersToProcess, fn', e') :=
      searchForCandidateAddressMarkUnresolvedNonCopyableValueInsts
        (function st) (diagnosticEmitter c) in
    (moveIntroducersToProcess,
     ({| diagnosticEmitter := e'; domTree := domTree c; poa := poa c;
         madeChange := madeChange c; allocator := allocator c |},
      recordCall SearchAddresses (setFunction fn' st))).

Definition objectCheckerCheck (moveIntroducersToProcess : Worklist)
  : Checking bool :=
  fun '(c, st) =>
    let '(changed, fn', e', a') :=
      MoveOnlyObjectChecker_check (domTree c) (poa c) moveIntroducersToProcess
        (function st) (diagnosticEmitter c) (allocator c) in
    (changed,
     ({| diagnosticEmitter := e'; domTree := domTree c; poa := poa c;
         madeChange := madeChange c; allocator := a' |},
      recordCall CheckObjects (setFunction fn' st))).

Definition addressCheckerCheck (moveIntroducersToProcess : Worklist)
  : Checking bool :=
  fun '(c, st) =>
    let '(changed, fn', e', a') :=
      MoveOnlyAddressChecker_check (domTree c) (poa c) moveIntroducersToProcess
        (function st) (diagnosticEmitter c) (allocator c) in
    (changed,
     ({| diagnosticEmitter := e'; domTree := domTree c; poa := poa c;
         madeChange := madeChange c; allocator := a' |},
      recordCall CheckAddresses (setFunction fn' st))).

Definition emitMissedCopyErrors : Checking unit :=
  fun '(c, st) =>
    let '(fn', e') :=
      emitCheckerMissedCopyOfNonCopyableTypeErrors
        (function st) (diagnosticEmitter c) in
    (tt,
     ({| diagnosticEmitter := e'; domTree := domTree c; poa := poa c;
         madeChange := madeChange c; allocator := allocator c |},
      recordCall EmitMissedCopyErrors (setFunction fn' st))).

(** The cleanup takes the function alone, so it is a step on the pass state. *)
Definition cleanupCopies (st : PassState) : bool * PassState :=
  let '(changed, fn') :=
    cleanupNonCopyableCopiesAfterEmittingDiagnostic (function st) in
  (changed, recordCall CleanupCopies (setFunction fn' st)).

(** Whether the search emitted a diagnostic, as the two methods work it out
    for their message: the count of the emitter before the search against
    its count now. *)
Definition searchEmittedDiagnostic (diagCount : N) (c : MoveOnlyChecker) : bool :=
  negb (diagCount =? getDiagnosticCount (diagnosticEmitter c))%N.

Definition emittingDiagnosticMessage (emitted : bool) : string :=
  ("Emitting diagnostic when checking for mark must check inst: " ++
   (if emitted then "yes" else "no") ++ newline)%string.

Definition noMoveIntroducersMessage : string :=
  ("No move introducers found?! Returning early?!" ++ newline)%string.

(** [MoveOnlyChecker::checkObjects] *)
Definition checkObjects : Checking unit :=
  (diagCount <- diagnosticCount ;;
   r <- searchObjects ;;
   let '(changed, moveIntroducersToProcess) := r in
   orMadeChange changed ;;
   debug (fun c =>
     emittingDiagnosticMessage (searchEmittedDiagnostic diagCount c)) ;;
   if empty moveIntroducersToProcess then
     debug (fun _ => noMoveIntroducersMessage)
   else
     changed <- objectCheckerCheck moveIntroducersToProcess ;;
     orMadeChange changed)%state.

(** [MoveOnlyChecker::checkAddresses] *)
Definition checkAddresses : Checking unit :=
  (diagCount <- diagnosticCount ;;
   moveIntroducersToProcess <- searchAddresses ;;
   debug (fun c =>
     emittingDiagnosticMessage (searchEmittedDiagnostic diagCount c)) ;;
   if empty moveIntroducersToProcess then
     debug (fun _ => noMoveIntroducersMessage)
   else
     changed <- addressCheckerCheck moveIntroducersToProcess ;;
     orMadeChange changed)%state.

(** ** [MoveOnlyCheckerPass::run] *)

(** The condition under which a function marked for deletion is deleted. *)
Definition isUnused (fn : SILFunction) : bool :=
  (getRefCount fn =? 0)%N &&
  negb (isPossiblyUsedExternally (getLinkage fn) (isWholeModule (getModule fn))).

(** The body of the inner [if]: erase the blocks after the entry, rewrite the
    entry block into a lone [unreachable] at the location of its first
    instruction, lower shared linkage to private, invalidate, return. *)
Definition deleteUnusedBody (st : PassState) : Outcome :=
  let fn := function st in
  match blocks fn with
  | [] => UndefinedBehavior
  | entryBB :: nextBB =>
    let rest := eraseNonEntryBlocks nextBB in
    match instructions entryBB with
    | [] => UndefinedBehavior
    | first :: _ =>
      let loc := getLoc first in
      let entryBB := createUnreachable (eraseAllInstructions entryBB) loc in
      let fn := setBlocks fn (entryBB :: rest) in
      let fn :=
        if SILLinkage.eqb (getLinkage fn) SILLinkage.Shared
        then setLinkage fn SILLinkage.Private else fn in
      Returned (invalidateAnalysis InvalidationKind.FunctionBody
                  (setFunction fn st))
    end
  end.

(** [checker.checkObjects(); checker.checkAddresses();] *)
Definition checkingPhases : Checking unit :=
  (checkObjects ;; checkAddresses)%state.

(** [if (!checker.diagnosticEmitter.emittedDiagnostic()) emit...Errors(...)] *)
Definition fallbackDiagnosis : Checking unit :=
  (emitted <- gets (fun '(c, _) => emittedDiagnostic (diagnosticEmitter c)) ;;
   if negb emitted then emitMissedCopyErrors else ret tt)%state.

(** [checker.madeChange |= cleanup...(fn);
     if (checker.madeChange) invalidateAnalysis(Instructions);] *)
Definition repair : Checking unit :=
  (changed <- (fun '(c, st) => let (b, st') := cleanupCopies st in (b, (c, st'))) ;;
   orMadeChange changed ;;
   made <- gets (fun '(c, _) => madeChange c) ;;
   if (made : bool)
   then modify (fun '(c, st) =>
                  (c, invalidateAnalysis InvalidationKind.Instructions st))
   else ret tt)%state.

(** From the construction of the checker to the end of [run].  The
    diagnostics the emitter recorded are the ones that reached the sink. *)
Definition normalChecking (st : PassState) : Outcome :=
  let fn := function st in
  let st := LLVM_DEBUG (fun _ => ("===> MoveOnly Checker. Visiting: " ++
                                  getName fn ++ newline)%string) st in
  let checker := newMoveOnlyChecker (getDominanceInfo fn) getPostOrderAnalysis in
  let '(_, (checker, st)) :=
    (checkingPhases ;; fallbackDiagnosis ;; repair)%state (checker, st) in
  Returned (setDiagnostics (recorded (diagnosticEmitter checker)) st).

(** From the test of the second semantics attribute to the end of [run]. *)
Definition suppressOrCheck (st : PassState) : Outcome :=
  let fn := function st in
  if hasSemanticsAttr fn NO_MOVEONLY_DIAGNOSTICS then
    let (changed, st) := cleanupCopies st in
    if changed
    then Returned (invalidateAnalysis InvalidationKind.Instructions st)
    else Returned st
  else normalChecking st.

Definition deletingMessage (fn : SILFunction) : string :=
  ("===> Deleting unused function " ++ getName fn ++
   "'s body that was marked for deletion" ++ newline)%string.

Definition markedButUsedMessage (fn : SILFunction) : string :=
  ("===> Function " ++ getName fn ++
   " was marked to be deleted, but has uses. Continuing with move checking" ++
   newline)%string.

Definition assertionMessage : string := "Should only run on Raw SIL".

Definition runFrom (st : PassState) : Outcome :=
  let fn := function st in
  if negb (supportsMoveOnlyTypes (getASTContext (getModule fn))) then
    Returned st
  else if wasDeserializedCanonical fn then
    Returned st
  else if negb (SILStage.eqb (getStage (getModule fn)) SILStage.Raw) then
    AssertionFailure assertionMessage st
  else if hasSemanticsAttr fn MOVEONLY_DELETE_IF_UNUSED then
    if isUnused fn then
      deleteUnusedBody (LLVM_DEBUG (fun _ => deletingMessage fn) st)
    else
      suppressOrCheck (LLVM_DEBUG (fun _ => markedButUsedMessage fn) st)
  else
    suppressOrCheck st.

(** One invocation of the pass on [fn]; [debug] says whether [LLVM_DEBUG]
    output is switched on. *)
Definition run (debug : bool) (fn : SILFunction) : Outcome :=
  runFrom (initialState debug fn).

End Checker.

(** ** One implementation of the components, to run the driver on functions

    The searches collect the markers of their value class, the object engine
    reports every implicit copy once it has a marker to start from, the
    address engine accepts everything, the sweep reports every implicit copy
    that is left and the cleanup makes every implicit copy explicit. *)
Module Sample.

Definition allInstructions (fn : SILFunction) : list SILInstruction :=
  flat_map instructions (blocks fn).

Definition isMarker (cat : SILValueCategory) (i : SILInstruction) : bool :=
  match getKind i, cat with
  | MarkUnresolvedNonCopyableValueInst Object, Object => true
  | MarkUnresolvedNonCopyableValueInst Address, Address => true
  | _, _ => false
  end.

Definition isImplicitCopy (i : SILInstruction) : bool :=
  match getKind i with CopyValueInst => true | _ => false end.

Definition makeExplicit (i : SILInstruction) : SILInstruction :=
  if isImplicitCopy i
  then {| getKind := ExplicitCopyValueInst; getLoc := getLoc i |}
  else i.

Definition possiblyUsedExternally (linkage : SILLinkage.t) (wholeModule : bool)
  : bool :=
  match linkage with
  | SILLinkage.Public | SILLinkage.PublicNonABI
  | SILLinkage.Package | SILLinkage.PackageNonABI => true
  | SILLinkage.Hidden => negb wholeModule
  | _ => false
  end.

Definition recordAll (ds : list Diagnostic) (e : DiagnosticEmitter)
  : DiagnosticEmitter :=
  fold_left (fun e d => recordDiagnostic d e) ds e.

Definition consumedTwice : Diagnostic := "value consumed more than once".
Definition missedCopy : Diagnostic := "copy of noncopyable typed value".

Definition copiesOf (fn : SILFunction) : list SILInstruction :=
  filter isImplicitCopy (allInstructions fn).

#[export] Instance collaborators : Collaborators := {|
  DominanceInfo := unit;
  PostOrderAnalysis := unit;
  IntervalMapAllocator := unit;
  MOVEONLY_DELETE_IF_UNUSED := "sil.optimizer.moveonly.delete_if_unused";
  NO_MOVEONLY_DIAGNOSTICS := "sil.optimizer.moveonly.diagnostic.ignore";
  isPossiblyUsedExternally := possiblyUsedExternally;
  getDominanceInfo := fun _ => tt;
  getPostOrderAnalysis := tt;
  newAllocator := tt;
  searchForCandidateObjectMarkUnresolvedNonCopyableValueInsts := fun fn e =>
    (false, filter (isMarker Object) (allInstructions fn), fn, e);
  searchForCandidateAddressMarkUnresolvedNonCopyableValueInsts := fun fn e =>
    (filter (isMarker Address) (allInstructions fn), fn, e);
  MoveOnlyObjectChecker_check := fun _ _ _ fn e a =>
    (false, fn, recordAll (map (fun _ => consumedTwice) (copiesOf fn)) e, a);
  MoveOnlyAddressChecker_check := fun _ _ _ fn e a => (false, fn, e, a);
  emitCheckerMissedCopyOfNonCopyableTypeErrors := fun fn e =>
    (fn, recordAll (map (fun _ => missedCopy) (copiesOf fn)) e);
  cleanupNonCopyableCopiesAfterEmittingDiagnostic := fun fn =>
    (existsb isImplicitCopy (allInstructions fn),
     setBlocks fn
       (map (fun bb => {| getArguments := getArguments bb;
                          instructions := map makeExplicit (instructions bb) |})
            (blocks fn)))
|}.

Definition inst (k : SILInstructionKind) (l : N) : SILInstruction :=
  {| getKind := k; getLoc := l |}.

Definition rawModule : SILModule :=
  {| getASTContext := {| supportsMoveOnlyTypes := true |};
     getStage := SILStage.Raw;
     isWholeModule := false |}.

Definition canonicalModule : SILModule :=
  {| getASTContext := {| supportsMoveOnlyTypes := true |};
     getStage := SILStage.Canonical;
     isWholeModule := false |}.

Definition moduleWithoutMoveOnly : SILModule :=
  {| getASTContext := {| supportsMoveOnlyTypes := false |};
     getStage := SILStage.Raw;
     isWholeModule := false |}.

(** Two blocks: a marker and an implicit copy, then a return. *)
Definition body : list SILBasicBlock :=
  [ {| getArguments := [Object];
       instructions := [ inst (MarkUnresolvedNonCopyableValueInst Object) 7;
                         inst CopyValueInst 8 ] |};
    {| getArguments := []; instructions := [ inst ReturnInst 9 ] |} ].

(** An implicit copy that no marker introduces. *)
Definition blindSpotBody : list SILBasicBlock :=
  [ {| getArguments := [Object];
       instructions := [ inst CopyValueInst 3;
                         inst ReturnInst 4 ] |} ].

Definition mkFunction (m : SILModule) (bs : list SILBasicBlock)
  (attrs : list string) (l : SILLinkage.t) (refs : N) (deserialized : bool)
  : SILFunction :=
  {| getName := "closure"; getModule := m; blocks := bs;
     getSemanticsAttrs := attrs; getLinkage := l; getRefCount := refs;
     wasDeserializedCanonical := deserialized |}.

Definition plain : SILFunction :=
  mkFunction rawModule body [] SILLinkage.Hidden 1 false.

Definition blindSpot : SILFunction :=
  mkFunction rawModule blindSpotBody [] SILLinkage.Hidden 1 false.

Definition unusedShared : SILFunction :=
  mkFunction rawModule body [MOVEONLY_DELETE_IF_UNUSED] SILLinkage.Shared 0 false.

Definition usedMarked : SILFunction :=
  mkFunction rawModule body [MOVEONLY_DELETE_IF_UNUSED] SILLinkage.Shared 1 false.

Definition suppressed : SILFunction :=
  mkFunction rawModule body [NO_MOVEONLY_DIAGNOSTICS] SILLinkage.Hidden 1 false.

Definition unusedBoth : SILFunction :=
  mkFunction rawModule body [MOVEONLY_DELETE_IF_UNUSED; NO_MOVEONLY_DIAGNOSTICS]
    SILLinkage.Shared 0 false.

Definition usedBoth : SILFunction :=
  mkFunction rawModule body [MOVEONLY_DELETE_IF_UNUSED; NO_MOVEONLY_DIAGNOSTICS]
    SILLinkage.Shared 1 false.

Definition deserialized : SILFunction :=
  mkFunction rawModule body [] SILLinkage.Hidden 1 true.

Definition featureOff : SILFunction :=
  mkFunction moduleWithoutMoveOnly body [] SILLinkage.Hidden 1 false.

Definition canonical : SILFunction :=
  mkFunction canonicalModule body [] SILLinkage.Hidden 1 false.

End Sample.

(** ** Two more implementations, for components that say they changed the
    function and for components that never do *)
Module Variants.

Import Sample.

(** A marker the object search resolves by itself: it erases it. *)
Definition isResolvedMarker (i : SILInstruction) : bool :=
  isMarker Object i && (getLoc i =? 0)%N.

Definition eraseResolvedMarkers (fn : SILFunction) : SILFunction :=
  setBlocks fn
    (map (fun bb => {| getArguments := getArguments bb;
                       instructions :=
                         filter (fun i => negb (isResolvedMarker i))
                                (instructions bb) |})
         (blocks fn)).

(** As [Sample.collaborators], with an object search that erases the
    markers it resolves and says whether it erased one. *)
Definition rewriting : Collaborators := {|
  DominanceInfo := unit;
  PostOrderAnalysis := unit;
  IntervalMapAllocator := unit;
  MOVEONLY_DELETE_IF_UNUSED := "sil.optimizer.moveonly.delete_if_unused";
  NO_MOVEONLY_DIAGNOSTICS := "sil.optimizer.moveonly.diagnostic.ignore";
  isPossiblyUsedExternally := possiblyUsedExternally;
  getDominanceInfo := fun _ => tt;
  getPostOrderAnalysis := tt;
  newAllocator := tt;
  searchForCandidateObjectMarkUnresolvedNonCopyableValueInsts := fun fn e =>
    (existsb isResolvedMarker (allInstructions fn),
     filter (isMarker Object) (allInstructions (eraseResolvedMarkers fn)),
     eraseResolvedMarkers fn, e);
  searchForCandidateAddressMarkUnresolvedNonCopyableValueInsts := fun fn e =>
    (filter (isMarker Address) (allInstructions fn), fn, e);
  MoveOnlyObjectChecker_check := fun _ _ _ fn e a => (false, fn, e, a);
  MoveOnlyAddressChecker_check := fun _ _ _ fn e a => (false, fn, e, a);
  emitCheckerMissedCopyOfNonCopyableTypeErrors := fun fn e => (fn, e);
  cleanupNonCopyableCopiesAfterEmittingDiagnostic := fun fn => (false, fn)
|}.

(** Components that find nothing, report nothing and change nothing. *)
Definition inert : Collaborators := {|
  DominanceInfo := unit;
  PostOrderAnalysis := unit;
  IntervalMapAllocator := unit;
  MOVEONLY_DELETE_IF_UNUSED := "sil.optimizer.moveonly.delete_if_unused";
  NO_MOVEONLY_DIAGNOSTICS := "sil.optimizer.moveonly.diagnostic.ignore";
  isPossiblyUsedExternally := possiblyUsedExternally;
  getDominanceInfo := fun _ => tt;
  getPostOrderAnalysis := tt;
  newAllocator := tt;
  searchForCandidateObjectMarkUnresolvedNonCopyableValueInsts := fun fn e =>
    (false, [], fn, e);
  searchForCandidateAddressMarkUnresolvedNonCopyableValueInsts := fun fn e =>
    ([], fn, e);
  MoveOnlyObjectChecker_check := fun _ _ _ fn e a => (false, fn, e, a);
  MoveOnlyAddressChecker_check := fun _ _ _ fn e a => (false, fn, e, a);
  emitCheckerMissedCopyOfNonCopyableTypeErrors := fun fn e => (fn, e);
  cleanupNonCopyableCopiesAfterEmittingDiagnostic := fun fn => (false, fn)
|}.

(** One block whose first marker the object search of [rewriting] erases. *)
Definition resolvedBody : list SILBasicBlock :=
  [ {| getArguments := [Object];
       instructions := [ inst (MarkUnresolvedNonCopyableValueInst Object) 0;
                         inst ReturnInst 5 ] |} ].

Definition resolved : SILFunction :=
  mkFunction rawModule resolvedBody [] SILLinkage.Hidden 1 false.

(** A private function marked for deletion that nothing refers to. *)
Definition unusedPrivate : SILFunction :=
  mkFunction rawModule body
    ["sil.optimizer.moveonly.delete_if_unused"] SILLinkage.Private 0 false.

(** A function marked for deletion whose entry block is empty. *)
Definition unusedEmptyEntry : SILFunction :=
  mkFunction rawModule [ {| getArguments := []; instructions := [] |} ]
    ["sil.optimizer.moveonly.delete_if_unused"] SILLinkage.Private 0 false.

End Variants.

(** ** Which path of [run] a function takes *)

(** The pass state without what [LLVM_DEBUG] reads and writes. *)
Definition quiet (st : PassState) : PassState :=
  {| function := function st; diagnostics := diagnostics st;
     invalidated := invalidated st; calls := calls st;
     DebugFlag := false; dbgs := [] |}.

Definition quietOutcome (o : Outcome) : Outcome :=
  match o with
  | Returned st => Returned (quiet st)
  | AssertionFailure msg st => AssertionFailure msg (quiet st)
  | UndefinedBehavior => UndefinedBehavior
  end.

(** The calls of the two checking phases. *)
Definition checkingCall (c : Call) : bool :=
  match c with
  | SearchObjects | CheckObjects | SearchAddresses | CheckAddresses => true
  | EmitMissedCopyErrors | CleanupCopies => false
  end.

(** The block the deletion leaves: the entry block with one [unreachable]. *)
Definition unreachableBlock (entryBB : SILBasicBlock) (loc : SILLocation)
  : SILBasicBlock :=
  {| getArguments := getArguments entryBB;
     instructions :=
       [ {| getKind := UnreachableInst; getLoc := loc |} ] |}.

Section Paths.

Context {C : Collaborators}.

(** The function gets past the two early returns and the assertion. *)
Definition passesEntryGate (fn : SILFunction) : bool :=
  supportsMoveOnlyTypes (getASTContext (getModule fn)) &&
  negb (wasDeserializedCanonical fn) &&
  SILStage.eqb (getStage (getModule fn)) SILStage.Raw.

(** The function is marked for deletion and is unused. *)
Definition takesDeletionPath (fn : SILFunction) : bool :=
  hasSemanticsAttr fn MOVEONLY_DELETE_IF_UNUSED && isUnused fn.

(** The function gets to the construction of the checker. *)
Definition reachesNormalChecking (fn : SILFunction) : bool :=
  passesEntryGate fn &&
  negb (takesDeletionPath fn) &&
  negb (hasSemanticsAttr fn NO_MOVEONLY_DIAGNOSTICS).

(** The pass state when [run] gets past the deletion step. *)
Definition stateAfterDeletionStep (debug : bool) (fn : SILFunction) : PassState :=
  if hasSemanticsAttr fn MOVEONLY_DELETE_IF_UNUSED
  then LLVM_DEBUG (fun _ => markedButUsedMessage fn) (initialState debug fn)
  else initialState debug fn.

(** The checker and the pass state when the checker has just been made. *)
Definition checkerStart (st : PassState) : MoveOnlyChecker * PassState :=
  (newMoveOnlyChecker (getDominanceInfo (function st)) getPostOrderAnalysis,
   LLVM_DEBUG (fun _ => ("===> MoveOnly Checker. Visiting: " ++
                         getName (function st) ++ newline)%string) st).

(** The checker and the pass state after [checkObjects] and [checkAddresses],
    and after the test that guards the sweep. *)
Definition stateAfterPhases (debug : bool) (fn : SILFunction)
  : MoveOnlyChecker * PassState :=
  snd (checkingPhases (checkerStart (stateAfterDeletionStep debug fn))).

Definition stateAfterFallback (debug : bool) (fn : SILFunction)
  : MoveOnlyChecker * PassState :=
  snd (fallbackDiagnosis (stateAfterPhases debug fn)).

(** What normal checking hands from one component to the next: the
    function, the emitter, the allocator, the change flag gathered so far
    and the components called so far. *)
Record CheckingFlow := {
  flowFunction : SILFunction;
  flowEmitter : DiagnosticEmitter;
  flowAllocator : IntervalMapAllocator;
  flowChanged : bool;
  flowCalls : list Call
}.

Definition flowOf (p : MoveOnlyChecker * PassState) : CheckingFlow :=
  {| flowFunction := function (snd p);
     flowEmitter := diagnosticEmitter (fst p);
     flowAllocator := allocator (fst p);
     flowChanged := madeChange (fst p);
     flowCalls := calls (snd p) |}.

Definition flowStart (fn : SILFunction) : CheckingFlow :=
  {| flowFunction := fn;
     flowEmitter := newDiagnosticEmitter;
     flowAllocator := newAllocator;
     flowChanged := false;
     flowCalls := [] |}.

(** The object search, then the object engine unless the worklist is empty. *)
Definition objectFlow (dom : DominanceInfo) (po : PostOrderAnalysis)
  (x : CheckingFlow) : CheckingFlow :=
  let '(changed, wl, fn1, e1) :=
    searchForCandidateObjectMarkUnresolvedNonCopyableValueInsts
      (flowFunction x) (flowEmitter x) in
  if empty wl then
    {| flowFunction := fn1; flowEmitter := e1;
       flowAllocator := flowAllocator x;
       flowChanged := flowChanged x || changed;
       flowCalls := flowCalls x ++ [SearchObjects] |}
  else
    let '(changed2, fn2, e2, a2) :=
      MoveOnlyObjectChecker_check dom po wl fn1 e1 (flowAllocator x) in
    {| flowFunction := fn2; flowEmitter := e2; flowAllocator := a2;
       flowChanged := flowChanged x || changed || changed2;
       flowCalls := flowCalls x ++ [SearchObjects; CheckObjects] |}.

(** The address search, then the address engine unless the worklist is empty. *)
Definition addressFlow (dom : DominanceInfo) (po : PostOrderAnalysis)
  (x : CheckingFlow) : CheckingFlow :=
  let '(wl, fn1, e1) :=
    searchForCandidateAddressMarkUnresolvedNonCopyableValueInsts
      (flowFunction x) (flowEmitter x) in
  if empty wl then
    {| flowFunction := fn1; flowEmitter := e1;
       flowAllocator := flowAllocator x;
       flowChanged := flowChanged x;
       flowCalls := flowCalls x ++ [SearchAddresses] |}
  else
    let '(changed2, fn2, e2, a2) :=
      MoveOnlyAddressChecker_check dom po wl fn1 e1 (flowAllocator x) in
    {| flowFunction := fn2; flowEmitter := e2; flowAllocator := a2;
       flowChanged := flowChanged x || changed2;
       flowCalls := flowCalls x ++ [SearchAddresses; CheckAddresses] |}.

(** The sweep for missed copies, unless the emitter has emitted. *)
Definition sweepFlow (x : CheckingFlow) : CheckingFlow :=
  if emittedDiagnostic (flowEmitter x) then x
  else
    let '(fn1, e1) :=
      emitCheckerMissedCopyOfNonCopyableTypeErrors
        (flowFunction x) (flowEmitter x) in
    {| flowFunction := fn1; flowEmitter := e1;
       flowAllocator := flowAllocator x;
       flowChanged := flowChanged x;
       flowCalls := flowCalls x ++ [EmitMissedCopyErrors] |}.

(** The cleanup. *)
Definition cleanupFlow (x : CheckingFlow) : CheckingFlow :=
  let '(changed, fn1) :=
    cleanupNonCopyableCopiesAfterEmittingDiagnostic (flowFunction x) in
  {| flowFunction := fn1; flowEmitter := flowEmitter x;
     flowAllocator := flowAllocator x;
     flowChanged := flowChanged x || changed;
     flowCalls := flowCalls x ++ [CleanupCopies] |}.

(** Normal checking of [fn] as one composition: both engines are given the
    dominance info and the post-order analysis obtained for [fn] as it came
    in. *)
Definition normalFlow (fn : SILFunction) : CheckingFlow :=
  cleanupFlow
    (sweepFlow
       (addressFlow (getDominanceInfo fn) getPostOrderAnalysis
          (objectFlow (getDominanceInfo fn) getPostOrderAnalysis
             (flowStart fn)))).

(** No component of [C] ever says it changed the function. *)
Definition neverChanges : Prop :=
  (forall fn e,
     fst (fst (fst (searchForCandidateObjectMarkUnresolvedNonCopyableValueInsts
                      fn e))) = false) /\
  (forall dom po wl fn e a,
     fst (fst (fst (MoveOnlyObjectChecker_check dom po wl fn e a))) = false) /\
  (forall dom po wl fn e a,
     fst (fst (fst (MoveOnlyAddressChecker_check dom po wl fn e a))) = false) /\
  (forall fn,
     fst (cleanupNonCopyableCopiesAfterEmittingDiagnostic fn) = false).

(** A checking step is oblivious when its result, the checker it leaves and
    the pass state it leaves, debugging output apart, are the same from two
    pass states that differ in the debugging output alone. *)
Definition oblivious {A} (m : Checking A) : Prop :=
  forall c st1 st2, quiet st1 = quiet st2 ->
    fst (m (c, st1)) = fst (m (c, st2)) /\
    fst (snd (m (c, st1))) = fst (snd (m (c, st2))) /\
    quiet (snd (snd (m (c, st1)))) = quiet (snd (snd (m (c, st2)))).

End Paths.

(** ** Basic facts *)

Lemma stage_eqb_eq a b : SILStage.eqb a b = true <-> a = b.
Proof. destruct a, b; simpl; split; congruence. Qed.

Lemma linkage_eqb_eq a b : SILLinkage.eqb a b = true <-> a = b.
Proof. destruct a, b; simpl; split; congruence. Qed.

Lemma linkage_eqb_neq a b : SILLinkage.eqb a b = false <-> a <> b.
Proof. destruct a, b; simpl; split; congruence. Qed.

Section Facts.

Context {C : Collaborators}.

Lemma LLVM_DEBUG_function msg st : function (LLVM_DEBUG msg st) = function st.
Proof. unfold LLVM_DEBUG. destruct (DebugFlag st); reflexivity. Qed.

Lemma LLVM_DEBUG_calls msg st : calls (LLVM_DEBUG msg st) = calls st.
Proof. unfold LLVM_DEBUG. destruct (DebugFlag st); reflexivity. Qed.

Lemma LLVM_DEBUG_invalidated msg st :
  invalidated (LLVM_DEBUG msg st) = invalidated st.
Proof. unfold LLVM_DEBUG. destruct (DebugFlag st); reflexivity. Qed.

Lemma LLVM_DEBUG_diagnostics msg st :
  diagnostics (LLVM_DEBUG msg st) = diagnostics st.
Proof. unfold LLVM_DEBUG. destruct (DebugFlag st); reflexivity. Qed.

Lemma LLVM_DEBUG_DebugFlag msg st : DebugFlag (LLVM_DEBUG msg st) = DebugFlag st.
Proof. unfold LLVM_DEBUG. destruct (DebugFlag st) eqn:E; simpl; auto. Qed.

Lemma eraseNonEntryBlocks_nil bs : eraseNonEntryBlocks bs = [].
Proof. induction bs as [|b bs IH]; simpl; auto. Qed.

Lemma emittedDiagnostic_false e : emittedDiagnostic e = false <-> recorded e = [].
Proof.
  unfold emittedDiagnostic, getDiagnosticCount.
  destruct (recorded e) as [|d ds]; simpl; split; intro H;
    try reflexivity; try discriminate.
Qed.

Lemma passesEntryGate_true fn :
  passesEntryGate fn = true <->
  supportsMoveOnlyTypes (getASTContext (getModule fn)) = true /\
  wasDeserializedCanonical fn = false /\
  getStage (getModule fn) = SILStage.Raw.
Proof.
  unfold passesEntryGate.
  rewrite !andb_true_iff, negb_true_iff, stage_eqb_eq. tauto.
Qed.

Lemma stateAfterDeletionStep_function debug fn :
  function (stateAfterDeletionStep debug fn) = fn.
Proof.
  unfold stateAfterDeletionStep.
  destruct (hasSemanticsAttr fn MOVEONLY_DELETE_IF_UNUSED);
    rewrite ?LLVM_DEBUG_function; reflexivity.
Qed.

Lemma stateAfterDeletionStep_calls debug fn :
  calls (stateAfterDeletionStep debug fn) = [].
Proof.
  unfold stateAfterDeletionStep.
  destruct (hasSemanticsAttr fn MOVEONLY_DELETE_IF_UNUSED);
    rewrite ?LLVM_DEBUG_calls; reflexivity.
Qed.

Lemma stateAfterDeletionStep_invalidated debug fn :
  invalidated (stateAfterDeletionStep debug fn) = None.
Proof.
  unfold stateAfterDeletionStep.
  destruct (hasSemanticsAttr fn MOVEONLY_DELETE_IF_UNUSED);
    rewrite ?LLVM_DEBUG_invalidated; reflexivity.
Qed.

Lemma stateAfterDeletionStep_diagnostics debug fn :
  diagnostics (stateAfterDeletionStep debug fn) = [].
Proof.
  unfold stateAfterDeletionStep.
  destruct (hasSemanticsAttr fn MOVEONLY_DELETE_IF_UNUSED);
    rewrite ?LLVM_DEBUG_diagnostics; reflexivity.
Qed.

(** Past the entry gate, [run] is the deletion step followed by the rest. *)
Lemma run_past_gate debug fn :
  passesEntryGate fn = true ->
  run debug fn =
  if takesDeletionPath fn
  then deleteUnusedBody
         (LLVM_DEBUG (fun _ => deletingMessage fn) (initialState debug fn))
  else suppressOrCheck (stateAfterDeletionStep debug fn).
Proof.
  intro G. apply passesEntryGate_true in G. destruct G as (G1 & G2 & G3).
  unfold run, runFrom, takesDeletionPath, stateAfterDeletionStep.
  cbn [function initialState].
  rewrite G1, G2, G3. cbn [negb SILStage.eqb].
  destruct (hasSemanticsAttr fn MOVEONLY_DELETE_IF_UNUSED); cbn [andb];
    [destruct (isUnused fn)|]; reflexivity.
Qed.

Lemma run_reaches_normalChecking debug fn :
  reachesNormalChecking fn = true ->
  run debug fn = normalChecking (stateAfterDeletionStep debug fn).
Proof.
  unfold reachesNormalChecking.
  rewrite !andb_true_iff, !negb_true_iff. intros [[G D] S].
  rewrite (run_past_gate debug fn G), D.
  unfold suppressOrCheck.
  rewrite stateAfterDeletionStep_function, S. reflexivity.
Qed.

End Facts.

(** ** The debugging output does not feed back into the pass *)

Section Oblivious.

Context {C : Collaborators}.

Lemma quiet_function st1 st2 : quiet st1 = quiet st2 -> function st1 = function st2.
Proof. intro H. apply (f_equal function) in H. exact H. Qed.

Lemma quiet_LLVM_DEBUG msg st : quiet (LLVM_DEBUG msg st) = quiet st.
Proof. unfold LLVM_DEBUG. destruct (DebugFlag st); reflexivity. Qed.

Lemma quiet_step (f : SILFunction) (c : Call) st1 st2 :
  quiet st1 = quiet st2 ->
  quiet (recordCall c (setFunction f st1)) = quiet (recordCall c (setFunction f st2)).
Proof.
  intro H. unfold quiet, recordCall, setFunction in *. cbn in *.
  injection H as Hf Hd Hi Hc. congruence.
Qed.

Lemma quiet_invalidateAnalysis k st1 st2 :
  quiet st1 = quiet st2 ->
  quiet (invalidateAnalysis k st1) = quiet (invalidateAnalysis k st2).
Proof.
  intro H. unfold quiet, invalidateAnalysis in *. cbn in *.
  injection H as Hf Hd Hi Hc. congruence.
Qed.

Lemma quiet_setDiagnostics ds st1 st2 :
  quiet st1 = quiet st2 ->
  quiet (setDiagnostics ds st1) = quiet (setDiagnostics ds st2).
Proof.
  intro H. unfold quiet, setDiagnostics in *. cbn in *.
  injection H as Hf Hd Hi Hc. congruence.
Qed.

Lemma oblivious_ret {A} (a : A) : oblivious (ret a).
Proof. intros c st1 st2 H. cbn. auto. Qed.

Lemma oblivious_bind {A B} (m : Checking A) (k : A -> Checking B) :
  oblivious m -> (forall a, oblivious (k a)) -> oblivious (bind m k).
Proof.
  intros Hm Hk c st1 st2 H. unfold bind.
  specialize (Hm c st1 st2 H).
  destruct (m (c, st1)) as [a1 [c1 s1]], (m (c, st2)) as [a2 [c2 s2]].
  cbn in Hm. destruct Hm as (-> & -> & Hs).
  apply Hk. exact Hs.
Qed.

Lemma oblivious_if {A} (b : bool) (m1 m2 : Checking A) :
  oblivious m1 -> oblivious m2 -> oblivious (if b then m1 else m2).
Proof. destruct b; auto. Qed.

Lemma oblivious_orMadeChange b : oblivious (orMadeChange b).
Proof. intros c st1 st2 H. cbn. auto. Qed.

Lemma oblivious_debug msg : oblivious (debug msg).
Proof. intros c st1 st2 H. cbn. rewrite !quiet_LLVM_DEBUG. auto. Qed.

Lemma oblivious_diagnosticCount : oblivious diagnosticCount.
Proof. intros c st1 st2 H. cbn. auto. Qed.

Lemma oblivious_searchObjects : oblivious searchObjects.
Proof.
  intros c st1 st2 H. unfold searchObjects. cbv beta iota.
  rewrite (quiet_function _ _ H).
  destruct (searchForCandidateObjectMarkUnresolvedNonCopyableValueInsts _ _)
    as [[[changed wl] fn'] e'].
  cbn. auto using quiet_step.
Qed.

Lemma oblivious_searchAddresses : oblivious searchAddresses.
Proof.
  intros c st1 st2 H. unfold searchAddresses. cbv beta iota.
  rewrite (quiet_function _ _ H).
  destruct (searchForCandidateAddressMarkUnresolvedNonCopyableValueInsts _ _)
    as [[wl fn'] e'].
  cbn. auto using quiet_step.
Qed.

Lemma oblivious_objectCheckerCheck wl : oblivious (objectCheckerCheck wl).
Proof.
  intros c st1 st2 H. unfold objectCheckerCheck. cbv beta iota.
  rewrite (quiet_function _ _ H).
  destruct (MoveOnlyObjectChecker_check _ _ _ _ _ _) as [[[changed fn'] e'] a'].
  cbn. auto using quiet_step.
Qed.

Lemma oblivious_addressCheckerCheck wl : oblivious (addressCheckerCheck wl).
Proof.
  intros c st1 st2 H. unfold addressCheckerCheck. cbv beta iota.
  rewrite (quiet_function _ _ H).
  destruct (MoveOnlyAddressChecker_check _ _ _ _ _ _) as [[[changed fn'] e'] a'].
  cbn. auto using quiet_step.
Qed.

Lemma oblivious_emitMissedCopyErrors : oblivious emitMissedCopyErrors.
Proof.
  intros c st1 st2 H. unfold emitMissedCopyErrors. cbv beta iota.
  rewrite (quiet_function _ _ H).
  destruct (emitCheckerMissedCopyOfNonCopyableTypeErrors _ _) as [fn' e'].
  cbn. auto using quiet_step.
Qed.

Lemma quiet_cleanupCopies st1 st2 :
  quiet st1 = quiet st2 ->
  fst (cleanupCopies st1) = fst (cleanupCopies st2) /\
  quiet (snd (cleanupCopies st1)) = quiet (snd (cleanupCopies st2)).
Proof.
  intro H. unfold cleanupCopies. rewrite (quiet_function _ _ H).
  destruct (cleanupNonCopyableCopiesAfterEmittingDiagnostic _) as [changed fn'].
  cbn. auto using quiet_step.
Qed.

Create HintDb oblivious.
#[local] Hint Resolve oblivious_ret oblivious_bind oblivious_if
  oblivious_orMadeChange oblivious_debug oblivious_diagnosticCount
  oblivious_searchObjects oblivious_searchAddresses
  oblivious_objectCheckerCheck oblivious_addressCheckerCheck
  oblivious_emitMissedCopyErrors : oblivious.

Lemma oblivious_checkObjects : oblivious checkObjects.
Proof.
  unfold checkObjects.
  apply oblivious_bind; [auto with oblivious | intro diagCount].
  apply oblivious_bind; [auto with oblivious | intros [changed wl]].
  auto 10 with oblivious.
Qed.

Lemma oblivious_checkAddresses : oblivious checkAddresses.
Proof.
  unfold checkAddresses.
  apply oblivious_bind; [auto with oblivious | intro diagCount].
  apply oblivious_bind; [auto with oblivious | intro wl].
  auto 10 with oblivious.
Qed.

Lemma oblivious_checkingPhases : oblivious checkingPhases.
Proof.
  unfold checkingPhases.
  auto using oblivious_bind, oblivious_checkObjects, oblivious_checkAddresses.
Qed.

Lemma oblivious_fallbackDiagnosis : oblivious fallbackDiagnosis.
Proof.
  unfold fallbackDiagnosis.
  apply oblivious_bind; [| intro emitted; auto with oblivious].
  intros c st1 st2 H. cbn. auto.
Qed.

Lemma oblivious_repair : oblivious repair.
Proof.
  unfold repair.
  apply oblivious_bind.
  - intros c st1 st2 H.
    destruct (quiet_cleanupCopies st1 st2 H) as [H1 H2].
    destruct (cleanupCopies st1) as [b1 s1], (cleanupCopies st2) as [b2 s2].
    cbn in *. auto.
  - intro changed. apply oblivious_bind; [auto with oblivious | intros _].
    apply oblivious_bind; [intros c st1 st2 H; cbn; auto | intro made].
    apply oblivious_if; [| auto with oblivious].
    intros c st1 st2 H. cbn. auto using quiet_invalidateAnalysis.
Qed.

Lemma quiet_normalChecking st1 st2 :
  quiet st1 = quiet st2 ->
  quietOutcome (normalChecking st1) = quietOutcome (normalChecking st2).
Proof.
  intro H. unfold normalChecking.
  rewrite (quiet_function _ _ H).
  set (ck := newMoveOnlyChecker _ _).
  set (m := (checkingPhases;; fallbackDiagnosis;; repair)%state).
  assert (Hm : oblivious m).
  { unfold m. auto using oblivious_bind, oblivious_checkingPhases,
      oblivious_fallbackDiagnosis, oblivious_repair. }
  match goal with
  | |- context [m (ck, ?a)] =>
      match goal with
      | |- context [quietOutcome (let '(_, _) := m (ck, ?b) in _) =
                    quietOutcome (let '(_, _) := m (ck, ?b') in _)] =>
          specialize (Hm ck b b')
      end
  end.
  rewrite !quiet_LLVM_DEBUG in Hm. specialize (Hm H).
  destruct (m (ck, _)) as [u1 [c1 s1]], (m (ck, _)) as [u2 [c2 s2]].
  cbn in Hm. destruct Hm as (_ & -> & Hs). cbn.
  f_equal. apply quiet_setDiagnostics. exact Hs.
Qed.

End Oblivious.

(** ** What the two methods do to the checker and to the pass state *)

Section Methods.

Context {C : Collaborators}.

(** [checkObjects]: the engine runs exactly when the worklist of the search
    is not empty, and [madeChange] gathers the flag the search returns and
    the flag the engine returns. *)
Lemma checkObjects_effect c st :
  let '(changed, wl, fn1, e1) :=
    searchForCandidateObjectMarkUnresolvedNonCopyableValueInsts
      (function st) (diagnosticEmitter c) in
  exists c' st',
    checkObjects (c, st) = (tt, (c', st')) /\
    calls st' =
      calls st ++ SearchObjects :: (if empty wl then [] else [CheckObjects]) /\
    madeChange c' =
      madeChange c || changed ||
      (if empty wl then false
       else fst (fst (fst (MoveOnlyObjectChecker_check (domTree c) (poa c) wl
                             fn1 e1 (allocator c))))) /\
    invalidated st' = invalidated st /\
    diagnostics st' = diagnostics st /\
    domTree c' = domTree c /\ poa c' = poa c.
Proof.
  unfold checkObjects, bind, diagnosticCount, gets, searchObjects,
    orMadeChange, debug, modify, objectCheckerCheck.
  destruct (searchForCandidateObjectMarkUnresolvedNonCopyableValueInsts _ _)
    as [[[changed wl] fn1] e1].
  destruct wl as [|i wl]; cbn -[LLVM_DEBUG].
  - eexists _, _. split; [reflexivity|].
    rewrite !LLVM_DEBUG_calls, !LLVM_DEBUG_invalidated, !LLVM_DEBUG_diagnostics.
    cbn. rewrite orb_false_r. repeat split.
  - destruct (MoveOnlyObjectChecker_check _ _ _ _ _ _) as [[[changed2 fn2] e2] a2]
      eqn:E.
    rewrite LLVM_DEBUG_function in E. cbn in E.
    eexists _, _. split; [reflexivity|].
    cbn -[LLVM_DEBUG].
    rewrite !LLVM_DEBUG_calls, !LLVM_DEBUG_invalidated, !LLVM_DEBUG_diagnostics.
    cbn. rewrite E. cbn. rewrite <- app_assoc. repeat split.
Qed.

(** [checkAddresses]: the engine runs exactly when the worklist of the search
    is not empty, and [madeChange] gathers the flag the engine returns. *)
Lemma checkAddresses_effect c st :
  let '(wl, fn1, e1) :=
    searchForCandidateAddressMarkUnresolvedNonCopyableValueInsts
      (function st) (diagnosticEmitter c) in
  exists c' st',
    checkAddresses (c, st) = (tt, (c', st')) /\
    calls st' =
      calls st ++ SearchAddresses :: (if empty wl then [] else [CheckAddresses]) /\
    madeChange c' =
      madeChange c ||
      (if empty wl then false
       else fst (fst (fst (MoveOnlyAddressChecker_check (domTree c) (poa c) wl
                             fn1 e1 (allocator c))))) /\
    invalidated st' = invalidated st /\
    diagnostics st' = diagnostics st /\
    domTree c' = domTree c /\ poa c' = poa c.
Proof.
  unfold checkAddresses, bind, diagnosticCount, gets, searchAddresses,
    orMadeChange, debug, modify, addressCheckerCheck.
  destruct (searchForCandidateAddressMarkUnresolvedNonCopyableValueInsts _ _)
    as [[wl fn1] e1].
  destruct wl as [|i wl]; cbn -[LLVM_DEBUG].
  - eexists _, _. split; [reflexivity|].
    rewrite !LLVM_DEBUG_calls, !LLVM_DEBUG_invalidated, !LLVM_DEBUG_diagnostics.
    cbn. rewrite orb_false_r. repeat split.
  - destruct (MoveOnlyAddressChecker_check _ _ _ _ _ _) as [[[changed2 fn2] e2] a2]
      eqn:E.
    rewrite LLVM_DEBUG_function in E. cbn in E.
    eexists _, _. split; [reflexivity|].
    cbn -[LLVM_DEBUG].
    rewrite !LLVM_DEBUG_calls, !LLVM_DEBUG_invalidated, !LLVM_DEBUG_diagnostics.
    cbn. rewrite E. cbn. rewrite <- app_assoc. repeat split.
Qed.

End Methods.

(** ** The steps of normal checking *)

Section Steps.

Context {C : Collaborators}.

Lemma called_app c xs ys : called c (xs ++ ys) = called c xs || called c ys.
Proof. unfold called. apply existsb_app. Qed.

Lemma called_checkingCalls c cs :
  forallb checkingCall cs = true -> checkingCall c = false -> called c cs = false.
Proof.
  intros H Hc. unfold called. induction cs as [|x cs IH]; [reflexivity|].
  cbn in H. apply andb_true_iff in H. destruct H as [Hx Hcs].
  cbn [existsb]. rewrite (IH Hcs), orb_false_r.
  destruct c, x; try reflexivity; discriminate.
Qed.

(** The two phases call the object search first and nothing but searches and
    engines; they report nothing to the host. *)
Lemma checkingPhases_effect c st :
  exists cs,
    calls (snd (snd (checkingPhases (c, st)))) = calls st ++ SearchObjects :: cs /\
    forallb checkingCall cs = true /\
    called SearchAddresses cs = true /\
    invalidated (snd (snd (checkingPhases (c, st)))) = invalidated st /\
    diagnostics (snd (snd (checkingPhases (c, st)))) = diagnostics st.
Proof.
  unfold checkingPhases, bind.
  pose proof (checkObjects_effect c st) as H1.
  destruct (searchForCandidateObjectMarkUnresolvedNonCopyableValueInsts _ _)
    as [[[changed wl] fn1] e1].
  destruct H1 as (c1 & st1 & -> & Hc1 & _ & Hi1 & Hd1 & _).
  pose proof (checkAddresses_effect c1 st1) as H2.
  destruct (searchForCandidateAddressMarkUnresolvedNonCopyableValueInsts _ _)
    as [[wl2 fn2] e2].
  destruct H2 as (c2 & st2 & -> & Hc2 & _ & Hi2 & Hd2 & _).
  cbn [fst snd]. rewrite Hc2, Hc1, Hi2, Hi1, Hd2, Hd1.
  exists ((if empty wl then [] else [CheckObjects]) ++
          SearchAddresses :: (if empty wl2 then [] else [CheckAddresses])).
  rewrite <- app_assoc. cbn [app].
  repeat split; destruct (empty wl), (empty wl2); reflexivity.
Qed.

Lemma fallbackDiagnosis_eq c st :
  fallbackDiagnosis (c, st) =
  if emittedDiagnostic (diagnosticEmitter c)
  then (tt, (c, st))
  else emitMissedCopyErrors (c, st).
Proof.
  unfold fallbackDiagnosis, bind, gets, ret.
  destruct (emittedDiagnostic (diagnosticEmitter c)); reflexivity.
Qed.

(** The guard of the sweep: it is called exactly when the emitter reports
    that it emitted nothing; it leaves [madeChange] alone. *)
Lemma fallbackDiagnosis_effect c st :
  calls (snd (snd (fallbackDiagnosis (c, st)))) =
    calls st ++ (if emittedDiagnostic (diagnosticEmitter c)
                 then [] else [EmitMissedCopyErrors]) /\
  madeChange (fst (snd (fallbackDiagnosis (c, st)))) = madeChange c /\
  invalidated (snd (snd (fallbackDiagnosis (c, st)))) = invalidated st.
Proof.
  rewrite fallbackDiagnosis_eq.
  destruct (emittedDiagnostic (diagnosticEmitter c)).
  - cbn. rewrite app_nil_r. auto.
  - unfold emitMissedCopyErrors.
    destruct (emitCheckerMissedCopyOfNonCopyableTypeErrors _ _) as [fn' e'].
    cbn. auto.
Qed.

(** The cleanup is called on the function as it stands, its flag is or-ed
    into [madeChange], and the host is notified exactly when [madeChange]
    is then set. *)
Lemma repair_effect c st :
  let r := cleanupNonCopyableCopiesAfterEmittingDiagnostic (function st) in
  let c' := fst (snd (repair (c, st))) in
  let st' := snd (snd (repair (c, st))) in
  function st' = snd r /\
  calls st' = calls st ++ [CleanupCopies] /\
  madeChange c' = madeChange c || fst r /\
  invalidated st' =
    (if madeChange c || fst r
     then Some InvalidationKind.Instructions else invalidated st) /\
  diagnosticEmitter c' = diagnosticEmitter c.
Proof.
  unfold repair, bind, cleanupCopies, orMadeChange, modify, gets, ret.
  destruct (cleanupNonCopyableCopiesAfterEmittingDiagnostic _) as [changed fn'].
  cbn. destruct (madeChange c || changed); cbn; auto.
Qed.

Lemma normalChecking_eq st :
  normalChecking st =
  let p3 := snd (repair (snd (fallbackDiagnosis
                   (snd (checkingPhases (checkerStart st)))))) in
  Returned (setDiagnostics (recorded (diagnosticEmitter (fst p3))) (snd p3)).
Proof.
  unfold normalChecking, checkerStart, bind.
  destruct (checkingPhases _) as [u1 p1]. cbn [snd].
  destruct (fallbackDiagnosis p1) as [u2 p2]. cbn [snd].
  destruct (repair p2) as [u3 [c3 st3]]. reflexivity.
Qed.

(** Normal checking always calls the object search, the address search and
    the cleanup. *)
Lemma normalChecking_calls st :
  exists cs,
    callsOf (normalChecking st) =
    calls st ++ SearchObjects :: cs ++ [CleanupCopies].
Proof.
  rewrite normalChecking_eq. cbv zeta.
  assert (Hs : calls (snd (checkerStart st)) = calls st).
  { cbn [checkerStart snd]. apply LLVM_DEBUG_calls. }
  destruct (checkerStart st) as [c0 st0]. cbn [snd] in Hs.
  destruct (checkingPhases_effect c0 st0) as (cs & Hc & _).
  destruct (snd (checkingPhases (c0, st0))) as [c1 st1].
  destruct (fallbackDiagnosis_effect c1 st1) as (Hf & _).
  destruct (snd (fallbackDiagnosis (c1, st1))) as [c2 st2].
  destruct (repair_effect c2 st2) as (_ & Hr & _).
  unfold callsOf, stateOf, setDiagnostics. cbn [calls snd] in *.
  rewrite Hr, Hf, Hc, Hs.
  exists (cs ++ (if emittedDiagnostic (diagnosticEmitter c1)
                 then [] else [EmitMissedCopyErrors])).
  rewrite <- !app_assoc. reflexivity.
Qed.

End Steps.

(** ** What the two methods write to the debugging stream *)

Section Log.

Context {C : Collaborators}.

Lemma LLVM_DEBUG_on msg st :
  DebugFlag st = true ->
  dbgs (LLVM_DEBUG msg st) = dbgs st ++ [msg tt] /\
  DebugFlag (LLVM_DEBUG msg st) = true.
Proof. intro H. unfold LLVM_DEBUG. rewrite H. cbn. auto. Qed.

Lemma checkObjects_log c st :
  DebugFlag st = true ->
  let '(changed, wl, fn1, e1) :=
    searchForCandidateObjectMarkUnresolvedNonCopyableValueInsts
      (function st) (diagnosticEmitter c) in
  dbgs (snd (snd (checkObjects (c, st)))) =
    dbgs st ++
    emittingDiagnosticMessage
      (negb (getDiagnosticCount (diagnosticEmitter c) =? getDiagnosticCount e1)%N)
    :: (if empty wl then [noMoveIntroducersMessage] else []).
Proof.
  intro D.
  unfold checkObjects, bind, diagnosticCount, gets, searchObjects,
    orMadeChange, debug, modify, objectCheckerCheck.
  destruct (searchForCandidateObjectMarkUnresolvedNonCopyableValueInsts _ _)
    as [[[changed wl] fn1] e1].
  set (st1 := recordCall SearchObjects (setFunction fn1 st)).
  assert (D1 : DebugFlag st1 = true) by exact D.
  destruct wl as [|i wl]; cbn -[LLVM_DEBUG noMoveIntroducersMessage emittingDiagnosticMessage]; fold st1.
  - destruct (LLVM_DEBUG_on
                (fun _ => emittingDiagnosticMessage
                   (negb (getDiagnosticCount (diagnosticEmitter c) =?
                          getDiagnosticCount e1)%N)) st1 D1) as [L1 D2].
    unfold searchEmittedDiagnostic. cbn [diagnosticEmitter].
    destruct (LLVM_DEBUG_on (fun _ => noMoveIntroducersMessage) _ D2) as [L2 _].
    rewrite L2, L1, <- app_assoc. reflexivity.
  - destruct (MoveOnlyObjectChecker_check _ _ _ _ _ _) as [[[changed2 fn2] e2] a2].
    cbn -[LLVM_DEBUG noMoveIntroducersMessage emittingDiagnosticMessage].
    destruct (LLVM_DEBUG_on
                (fun _ => emittingDiagnosticMessage
                   (negb (getDiagnosticCount (diagnosticEmitter c) =?
                          getDiagnosticCount e1)%N)) st1 D1) as [L1 _].
    unfold searchEmittedDiagnostic. cbn [diagnosticEmitter].
    rewrite L1. reflexivity.
Qed.

Lemma checkAddresses_log c st :
  DebugFlag st = true ->
  let '(wl, fn1, e1) :=
    searchForCandidateAddressMarkUnresolvedNonCopyableValueInsts
      (function st) (diagnosticEmitter c) in
  dbgs (snd (snd (checkAddresses (c, st)))) =
    dbgs st ++
    emittingDiagnosticMessage
      (negb (getDiagnosticCount (diagnosticEmitter c) =? getDiagnosticCount e1)%N)
    :: (if empty wl then [noMoveIntroducersMessage] else []).
Proof.
  intro D.
  unfold checkAddresses, bind, diagnosticCount, gets, searchAddresses,
    orMadeChange, debug, modify, addressCheckerCheck.
  destruct (searchForCandidateAddressMarkUnresolvedNonCopyableValueInsts _ _)
    as [[wl fn1] e1].
  set (st1 := recordCall SearchAddresses (setFunction fn1 st)).
  assert (D1 : DebugFlag st1 = true) by exact D.
  destruct wl as [|i wl]; cbn -[LLVM_DEBUG noMoveIntroducersMessage emittingDiagnosticMessage]; fold st1.
  - destruct (LLVM_DEBUG_on
                (fun _ => emittingDiagnosticMessage
                   (negb (getDiagnosticCount (diagnosticEmitter c) =?
                          getDiagnosticCount e1)%N)) st1 D1) as [L1 D2].
    unfold searchEmittedDiagnostic. cbn [diagnosticEmitter].
    destruct (LLVM_DEBUG_on (fun _ => noMoveIntroducersMessage) _ D2) as [L2 _].
    rewrite L2, L1, <- app_assoc. reflexivity.
  - destruct (MoveOnlyAddressChecker_check _ _ _ _ _ _) as [[[changed2 fn2] e2] a2].
    cbn -[LLVM_DEBUG noMoveIntroducersMessage emittingDiagnosticMessage].
    destruct (LLVM_DEBUG_on
                (fun _ => emittingDiagnosticMessage
                   (negb (getDiagnosticCount (diagnosticEmitter c) =?
                          getDiagnosticCount e1)%N)) st1 D1) as [L1 _].
    unfold searchEmittedDiagnostic. cbn [diagnosticEmitter].
    rewrite L1. reflexivity.
Qed.

End Log.

(** ** Properties of the pass *)

Section Properties.

Context {C : Collaborators}.

Lemma deleteUnusedBody_effect st entryBB rest first others :
  blocks (function st) = entryBB :: rest ->
  instructions entryBB = first :: others ->
  exists st',
    deleteUnusedBody st = Returned st' /\
    blocks (function st') = [unreachableBlock entryBB (getLoc first)] /\
    getLinkage (function st') =
      (if SILLinkage.eqb (getLinkage (function st)) SILLinkage.Shared
       then SILLinkage.Private else getLinkage (function st)) /\
    invalidated st' = Some InvalidationKind.FunctionBody /\
    calls st' = calls st /\
    diagnostics st' = diagnostics st.
Proof.
  intros Hb Hi. unfold deleteUnusedBody. rewrite Hb, Hi.
  rewrite eraseNonEntryBlocks_nil. cbn [setBlocks getLinkage].
  eexists. split; [reflexivity|].
  destruct (SILLinkage.eqb (getLinkage (function st)) SILLinkage.Shared);
    cbn; repeat split.
Qed.

Lemma deleteUnusedBody_calls st : callsOf (deleteUnusedBody st) = [] \/
  callsOf (deleteUnusedBody st) = calls st.
Proof.
  unfold deleteUnusedBody.
  destruct (blocks (function st)) as [|entryBB rest]; [left; reflexivity|].
  destruct (instructions entryBB) as [|first others]; [left; reflexivity|].
  right. reflexivity.
Qed.

Lemma suppressOrCheck_suppressed st :
  hasSemanticsAttr (function st) NO_MOVEONLY_DIAGNOSTICS = true ->
  let r := cleanupNonCopyableCopiesAfterEmittingDiagnostic (function st) in
  exists st',
    suppressOrCheck st = Returned st' /\
    function st' = snd r /\
    calls st' = calls st ++ [CleanupCopies] /\
    diagnostics st' = diagnostics st /\
    invalidated st' =
      (if fst r then Some InvalidationKind.Instructions else invalidated st).
Proof.
  intro H. unfold suppressOrCheck, cleanupCopies. rewrite H.
  destruct (cleanupNonCopyableCopiesAfterEmittingDiagnostic _) as [changed fn'].
  destruct changed; eexists; (split; [reflexivity|]); cbn; repeat split.
Qed.

(** C1: a function marked delete-if-unused that has no reference and is not
    possibly used externally gets past the entry gate with an entry block
    that has a first instruction; the pass then leaves exactly one block
    holding exactly one unreachable, lowers shared linkage to private and
    leaves any other linkage alone, reports a change and returns without
    calling any component and without a diagnostic. *)
Theorem unused_marked_function_is_deleted debug fn entryBB rest first others :
  passesEntryGate fn = true ->
  hasSemanticsAttr fn MOVEONLY_DELETE_IF_UNUSED = true ->
  getRefCount fn = 0%N ->
  isPossiblyUsedExternally (getLinkage fn) (isWholeModule (getModule fn)) = false ->
  blocks fn = entryBB :: rest ->
  instructions entryBB = first :: others ->
  exists st',
    run debug fn = Returned st' /\
    blocks (function st') = [unreachableBlock entryBB (getLoc first)] /\
    (getLinkage fn = SILLinkage.Shared ->
     getLinkage (function st') = SILLinkage.Private) /\
    (getLinkage fn <> SILLinkage.Shared ->
     getLinkage (function st') = getLinkage fn) /\
    reportedChange st' = true /\
    invalidated st' = Some InvalidationKind.FunctionBody /\
    calls st' = [] /\
    diagnostics st' = [].
Proof.
  intros G A R E Hb Hi.
  rewrite (run_past_gate debug fn G).
  unfold takesDeletionPath, isUnused. rewrite A, R, E. cbn [N.eqb andb negb].
  set (st := LLVM_DEBUG _ _).
  assert (Hf : function st = fn) by (unfold st; apply LLVM_DEBUG_function).
  destruct (deleteUnusedBody_effect st entryBB rest first others)
    as (st' & Hrun & Hbl & Hl & Hinv & Hc & Hd).
  { rewrite Hf. exact Hb. }
  { exact Hi. }
  exists st'. rewrite Hf in Hl.
  unfold st in Hc, Hd. rewrite LLVM_DEBUG_calls in Hc.
  rewrite LLVM_DEBUG_diagnostics in Hd. cbn in Hc, Hd.
  repeat split; auto.
  - intro S. rewrite Hl, S. reflexivity.
  - intro S. rewrite Hl. apply linkage_eqb_neq in S. rewrite S. reflexivity.
  - unfold reportedChange. rewrite Hinv. reflexivity.
Qed.

(** C3: a function marked suppress-diagnostics that gets past the entry gate
    and does not take the deletion path is handed to the cleanup and to
    nothing else; no diagnostic is emitted, the function is what the cleanup
    made of it, and a change is reported exactly when the cleanup says it
    changed the function. *)
Theorem suppressed_function_is_only_cleaned debug fn :
  passesEntryGate fn = true ->
  takesDeletionPath fn = false ->
  hasSemanticsAttr fn NO_MOVEONLY_DIAGNOSTICS = true ->
  exists st',
    run debug fn = Returned st' /\
    calls st' = [CleanupCopies] /\
    diagnostics st' = [] /\
    function st' = snd (cleanupNonCopyableCopiesAfterEmittingDiagnostic fn) /\
    reportedChange st' = fst (cleanupNonCopyableCopiesAfterEmittingDiagnostic fn) /\
    invalidated st' =
      (if fst (cleanupNonCopyableCopiesAfterEmittingDiagnostic fn)
       then Some InvalidationKind.Instructions else None).
Proof.
  intros G D S.
  rewrite (run_past_gate debug fn G), D.
  destruct (suppressOrCheck_suppressed (stateAfterDeletionStep debug fn))
    as (st' & Hrun & Hf & Hc & Hd & Hi).
  { rewrite stateAfterDeletionStep_function. exact S. }
  rewrite stateAfterDeletionStep_function in Hf, Hi.
  rewrite stateAfterDeletionStep_calls in Hc.
  rewrite stateAfterDeletionStep_diagnostics in Hd.
  rewrite stateAfterDeletionStep_invalidated in Hi.
  exists st'. repeat split; auto.
  unfold reportedChange. rewrite Hi.
  destruct (fst (cleanupNonCopyableCopiesAfterEmittingDiagnostic fn)); reflexivity.
Qed.

(** C7: when the context does not support move-only types the pass returns
    at once: the function is untouched, no diagnostic is emitted, no
    component is called and no change is reported. *)
Theorem disabled_feature_is_noop debug fn :
  supportsMoveOnlyTypes (getASTContext (getModule fn)) = false ->
  exists st',
    run debug fn = Returned st' /\
    function st' = fn /\
    diagnostics st' = [] /\
    calls st' = [] /\
    reportedChange st' = false /\
    dbgs st' = [].
Proof.
  intro H. exists (initialState debug fn).
  unfold run, runFrom. cbn [function initialState]. rewrite H. cbn.
  repeat split.
Qed.

(** C8: on a function deserialized from canonical SIL the pass returns at
    once, whether or not move-only types are supported: the function is
    untouched, no diagnostic is emitted, no component is called and no
    change is reported. *)
Theorem deserialized_function_is_noop debug fn :
  wasDeserializedCanonical fn = true ->
  exists st',
    run debug fn = Returned st' /\
    function st' = fn /\
    diagnostics st' = [] /\
    calls st' = [] /\
    reportedChange st' = false /\
    dbgs st' = [].
Proof.
  intro H. exists (initialState debug fn).
  unfold run, runFrom. cbn [function initialState]. rewrite H.
  destruct (supportsMoveOnlyTypes (getASTContext (getModule fn))); cbn;
    repeat split.
Qed.

Lemma suppressOrCheck_returns st :
  exists st', suppressOrCheck st = Returned st'.
Proof.
  unfold suppressOrCheck.
  destruct (hasSemanticsAttr (function st) NO_MOVEONLY_DIAGNOSTICS).
  - destruct (cleanupCopies st) as [[|] st']; eexists; reflexivity.
  - rewrite normalChecking_eq. eexists. reflexivity.
Qed.

(** C9: past the two early returns, a module that is not in the raw stage
    makes the assertion fail: the pass stops there with the function
    untouched, no diagnostic, no component called and no change reported;
    so whenever a component is called the stage is raw. *)
Theorem wrong_stage_is_fatal debug fn :
  supportsMoveOnlyTypes (getASTContext (getModule fn)) = true ->
  wasDeserializedCanonical fn = false ->
  (getStage (getModule fn) <> SILStage.Raw ->
   exists st',
     run debug fn = AssertionFailure assertionMessage st' /\
     function st' = fn /\
     diagnostics st' = [] /\
     calls st' = [] /\
     reportedChange st' = false) /\
  (callsOf (run debug fn) <> [] -> getStage (getModule fn) = SILStage.Raw) /\
  (getStage (getModule fn) = SILStage.Raw ->
   forall msg st', run debug fn <> AssertionFailure msg st').
Proof.
  intros F D.
  assert (Hbad : getStage (getModule fn) <> SILStage.Raw ->
                 run debug fn = AssertionFailure assertionMessage
                                  (initialState debug fn)).
  { intro S. unfold run, runFrom. cbn [function initialState].
    rewrite F, D. cbn [negb].
    destruct (SILStage.eqb (getStage (getModule fn)) SILStage.Raw) eqn:E.
    - apply stage_eqb_eq in E. contradiction.
    - reflexivity. }
  split; [|split].
  - intro S. exists (initialState debug fn). rewrite (Hbad S). repeat split.
  - intro Hc.
    destruct (SILStage.eqb (getStage (getModule fn)) SILStage.Raw) eqn:E.
    + apply stage_eqb_eq in E. exact E.
    + exfalso. apply Hc. rewrite Hbad; [reflexivity|].
      intro S. apply stage_eqb_eq in S. congruence.
  - intros S msg st' Hrun.
    assert (G : passesEntryGate fn = true).
    { apply passesEntryGate_true. auto. }
    rewrite (run_past_gate debug fn G) in Hrun.
    destruct (takesDeletionPath fn).
    + unfold deleteUnusedBody in Hrun.
      destruct (blocks _) as [|entryBB rest]; [discriminate|].
      destruct (instructions entryBB); discriminate.
    + destruct (suppressOrCheck_returns (stateAfterDeletionStep debug fn))
        as (st2 & H2).
      rewrite H2 in Hrun. discriminate.
Qed.

Lemma stateAfterPhases_effect debug fn :
  exists cs,
    calls (snd (stateAfterPhases debug fn)) = SearchObjects :: cs /\
    forallb checkingCall cs = true /\
    invalidated (snd (stateAfterPhases debug fn)) = None.
Proof.
  unfold stateAfterPhases.
  assert (Hs : calls (snd (checkerStart (stateAfterDeletionStep debug fn))) = [] /\
               invalidated (snd (checkerStart (stateAfterDeletionStep debug fn)))
               = None).
  { cbn [checkerStart snd].
    rewrite LLVM_DEBUG_calls, LLVM_DEBUG_invalidated,
      stateAfterDeletionStep_calls, stateAfterDeletionStep_invalidated. auto. }
  destruct (checkerStart (stateAfterDeletionStep debug fn)) as [c0 st0].
  cbn [snd] in Hs. destruct Hs as [Hc0 Hi0].
  destruct (checkingPhases_effect c0 st0) as (cs & Hc & Hall & _ & Hi & _).
  exists cs. rewrite Hc, Hi, Hc0, Hi0. auto.
Qed.

Lemma run_normal_eq debug fn :
  reachesNormalChecking fn = true ->
  run debug fn =
  let p3 := snd (repair (stateAfterFallback debug fn)) in
  Returned (setDiagnostics (recorded (diagnosticEmitter (fst p3))) (snd p3)).
Proof.
  intro H. rewrite (run_reaches_normalChecking debug fn H), normalChecking_eq.
  reflexivity.
Qed.

(** C2: for a function that reaches normal checking, the sweep for missed
    copies is called exactly when the emitter, after [checkObjects] and
    [checkAddresses], reports that it emitted no diagnostic, which is when it
    recorded none. *)
Theorem missed_copy_sweep_iff_nothing_emitted debug fn :
  reachesNormalChecking fn = true ->
  (called EmitMissedCopyErrors (callsOf (run debug fn)) = true <->
   emittedDiagnostic (diagnosticEmitter (fst (stateAfterPhases debug fn))) = false) /\
  (emittedDiagnostic (diagnosticEmitter (fst (stateAfterPhases debug fn))) = false <->
   recorded (diagnosticEmitter (fst (stateAfterPhases debug fn))) = []).
Proof.
  intro H. split; [| apply emittedDiagnostic_false].
  rewrite (run_normal_eq debug fn H). cbv zeta.
  unfold stateAfterFallback.
  destruct (stateAfterPhases_effect debug fn) as (cs & Hc & Hall & _).
  destruct (stateAfterPhases debug fn) as [c1 st1]. cbn [fst snd] in *.
  destruct (fallbackDiagnosis_effect c1 st1) as (Hf & _).
  destruct (snd (fallbackDiagnosis (c1, st1))) as [c2 st2]. cbn [snd] in Hf.
  destruct (repair_effect c2 st2) as (_ & Hr & _).
  unfold callsOf, stateOf, setDiagnostics. cbn [calls].
  rewrite Hr, Hf, Hc, !called_app.
  change (SearchObjects :: cs) with ([SearchObjects] ++ cs).
  rewrite called_app, (called_checkingCalls EmitMissedCopyErrors cs Hall eq_refl).
  destruct (emittedDiagnostic (diagnosticEmitter c1)); cbn; split; congruence.
Qed.

(** C5: for a function that reaches normal checking, whatever was or was
    not emitted, the cleanup is called after the phases and the guarded
    sweep, on the function as they left it; the function the pass leaves is
    the one the cleanup returns, and a change is reported exactly when
    [madeChange] was set by the phases or the cleanup returns true. *)
Theorem cleanup_runs_and_merges_its_flag debug fn :
  reachesNormalChecking fn = true ->
  let st2 := snd (stateAfterFallback debug fn) in
  let r := cleanupNonCopyableCopiesAfterEmittingDiagnostic (function st2) in
  exists st',
    run debug fn = Returned st' /\
    calls st' = calls st2 ++ [CleanupCopies] /\
    called CleanupCopies (calls st2) = false /\
    function st' = snd r /\
    reportedChange st' = madeChange (fst (stateAfterPhases debug fn)) || fst r /\
    invalidated st' =
      (if madeChange (fst (stateAfterPhases debug fn)) || fst r
       then Some InvalidationKind.Instructions else None).
Proof.
  intro H. cbv zeta. rewrite (run_normal_eq debug fn H). cbv zeta.
  unfold stateAfterFallback.
  destruct (stateAfterPhases_effect debug fn) as (cs & Hc & Hall & Hi).
  destruct (stateAfterPhases debug fn) as [c1 st1]. cbn [fst snd] in *.
  destruct (fallbackDiagnosis_effect c1 st1) as (Hf & Hm & Hfi).
  destruct (snd (fallbackDiagnosis (c1, st1))) as [c2 st2]. cbn [fst snd] in *.
  destruct (repair_effect c2 st2) as (Rf & Rc & Rm & Ri & _).
  rewrite Hm in Ri. rewrite Hfi, Hi in Ri.
  eexists. split; [reflexivity|].
  unfold setDiagnostics, reportedChange. cbn [calls function invalidated].
  rewrite Ri. repeat split; auto.
  - rewrite Hf, Hc, called_app.
    change (SearchObjects :: cs) with ([SearchObjects] ++ cs).
    rewrite called_app, (called_checkingCalls CleanupCopies cs Hall eq_refl).
    destruct (emittedDiagnostic (diagnosticEmitter c1)); reflexivity.
  - destruct (madeChange c1 || _); reflexivity.
Qed.

Lemma LLVM_DEBUG_off msg st : DebugFlag st = false -> LLVM_DEBUG msg st = st.
Proof. intro H. unfold LLVM_DEBUG. rewrite H. reflexivity. Qed.

Lemma checkObjects_silent c st :
  DebugFlag st = false -> dbgs (snd (snd (checkObjects (c, st)))) = dbgs st.
Proof.
  intro D.
  unfold checkObjects, bind, diagnosticCount, gets, searchObjects,
    orMadeChange, debug, modify, objectCheckerCheck.
  destruct (searchForCandidateObjectMarkUnresolvedNonCopyableValueInsts _ _)
    as [[[changed wl] fn1] e1].
  destruct wl as [|i wl];
    cbn -[LLVM_DEBUG noMoveIntroducersMessage emittingDiagnosticMessage];
    rewrite !LLVM_DEBUG_off by (rewrite ?LLVM_DEBUG_DebugFlag; exact D);
    [reflexivity|].
  destruct (MoveOnlyObjectChecker_check _ _ _ _ _ _) as [[[changed2 fn2] e2] a2].
  reflexivity.
Qed.

Lemma checkAddresses_silent c st :
  DebugFlag st = false -> dbgs (snd (snd (checkAddresses (c, st)))) = dbgs st.
Proof.
  intro D.
  unfold checkAddresses, bind, diagnosticCount, gets, searchAddresses,
    orMadeChange, debug, modify, addressCheckerCheck.
  destruct (searchForCandidateAddressMarkUnresolvedNonCopyableValueInsts _ _)
    as [[wl fn1] e1].
  destruct wl as [|i wl];
    cbn -[LLVM_DEBUG noMoveIntroducersMessage emittingDiagnosticMessage];
    rewrite !LLVM_DEBUG_off by (rewrite ?LLVM_DEBUG_DebugFlag; exact D);
    [reflexivity|].
  destruct (MoveOnlyAddressChecker_check _ _ _ _ _ _) as [[[changed2 fn2] e2] a2].
  reflexivity.
Qed.

Lemma quiet_stateAfterDeletionStep d1 d2 fn :
  quiet (stateAfterDeletionStep d1 fn) = quiet (stateAfterDeletionStep d2 fn).
Proof.
  unfold stateAfterDeletionStep.
  destruct (hasSemanticsAttr fn MOVEONLY_DELETE_IF_UNUSED);
    rewrite ?quiet_LLVM_DEBUG; reflexivity.
Qed.

(** C4: for a function that reaches normal checking, whether a search
    emitted a diagnostic is a boolean each method works out for its message
    to the debugging stream and for nothing else.  With the stream on, the
    message carries it; with the stream off, it is not worked out at all,
    and the outcome of the pass is the same as with the stream on, the
    stream apart: same function, diagnostics, calls and reported change.
    Each engine is called exactly when its worklist is not empty, and
    [madeChange] gathers the flags the object search and the engines
    return. *)
Theorem search_diagnostic_flag_is_only_logged fn :
  reachesNormalChecking fn = true ->
  quietOutcome (run true fn) = quietOutcome (run false fn) /\
  (forall c st,
     let '(changed, wl, fn1, e1) :=
       searchForCandidateObjectMarkUnresolvedNonCopyableValueInsts
         (function st) (diagnosticEmitter c) in
     let emitted :=
       negb (getDiagnosticCount (diagnosticEmitter c) =? getDiagnosticCount e1)%N in
     let c' := fst (snd (checkObjects (c, st))) in
     let st' := snd (snd (checkObjects (c, st))) in
     (DebugFlag st = true ->
      dbgs st' = dbgs st ++ emittingDiagnosticMessage emitted
                 :: (if empty wl then [noMoveIntroducersMessage] else [])) /\
     (DebugFlag st = false -> dbgs st' = dbgs st) /\
     calls st' =
       calls st ++ SearchObjects :: (if empty wl then [] else [CheckObjects]) /\
     madeChange c' =
       madeChange c || changed ||
       (if empty wl then false
        else fst (fst (fst (MoveOnlyObjectChecker_check (domTree c) (poa c) wl
                              fn1 e1 (allocator c))))) /\
     invalidated st' = invalidated st) /\
  (forall c st,
     let '(wl, fn1, e1) :=
       searchForCandidateAddressMarkUnresolvedNonCopyableValueInsts
         (function st) (diagnosticEmitter c) in
     let emitted :=
       negb (getDiagnosticCount (diagnosticEmitter c) =? getDiagnosticCount e1)%N in
     let c' := fst (snd (checkAddresses (c, st))) in
     let st' := snd (snd (checkAddresses (c, st))) in
     (DebugFlag st = true ->
      dbgs st' = dbgs st ++ emittingDiagnosticMessage emitted
                 :: (if empty wl then [noMoveIntroducersMessage] else [])) /\
     (DebugFlag st = false -> dbgs st' = dbgs st) /\
     calls st' =
       calls st ++ SearchAddresses :: (if empty wl then [] else [CheckAddresses]) /\
     madeChange c' =
       madeChange c ||
       (if empty wl then false
        else fst (fst (fst (MoveOnlyAddressChecker_check (domTree c) (poa c) wl
                              fn1 e1 (allocator c))))) /\
     invalidated st' = invalidated st).
Proof.
  intro H. split; [|split].
  - rewrite !(run_reaches_normalChecking _ fn H).
    apply quiet_normalChecking, quiet_stateAfterDeletionStep.
  - intros c st.
    pose proof (checkObjects_effect c st) as He.
    pose proof (checkObjects_log c st) as Hl.
    pose proof (checkObjects_silent c st) as Hs.
    destruct (searchForCandidateObjectMarkUnresolvedNonCopyableValueInsts _ _)
      as [[[changed wl] fn1] e1].
    destruct He as (c' & st' & E & Hc & Hm & Hi & _).
    cbv zeta. rewrite E in *. cbn [fst snd] in *. auto.
  - intros c st.
    pose proof (checkAddresses_effect c st) as He.
    pose proof (checkAddresses_log c st) as Hl.
    pose proof (checkAddresses_silent c st) as Hs.
    destruct (searchForCandidateAddressMarkUnresolvedNonCopyableValueInsts _ _)
      as [[wl fn1] e1].
    destruct He as (c' & st' & E & Hc & Hm & Hi & _).
    cbv zeta. rewrite E in *. cbn [fst snd] in *. auto.
Qed.

(** C6, amended: a function marked delete-if-unused that gets past the
    entry gate and is not unused comes out of the deletion step as it went
    in, with nothing called and nothing reported, and the pass goes on from
    the test of the suppress-diagnostics attribute: without that attribute
    normal checking runs on the function, starting with the object search
    and ending with the cleanup; with it the cleanup alone is called. *)
Theorem marked_but_used_function_continues debug fn :
  passesEntryGate fn = true ->
  hasSemanticsAttr fn MOVEONLY_DELETE_IF_UNUSED = true ->
  isUnused fn = false ->
  let st := stateAfterDeletionStep debug fn in
  function st = fn /\
  calls st = [] /\
  invalidated st = None /\
  run debug fn = suppressOrCheck st /\
  (hasSemanticsAttr fn NO_MOVEONLY_DIAGNOSTICS = false ->
   run debug fn = normalChecking st /\
   exists cs, callsOf (run debug fn) = SearchObjects :: cs ++ [CleanupCopies]) /\
  (hasSemanticsAttr fn NO_MOVEONLY_DIAGNOSTICS = true ->
   callsOf (run debug fn) = [CleanupCopies]).
Proof.
  intros G A U st.
  assert (Hf : function st = fn) by apply stateAfterDeletionStep_function.
  assert (Hc : calls st = []) by apply stateAfterDeletionStep_calls.
  assert (Hrun : run debug fn = suppressOrCheck st).
  { rewrite (run_past_gate debug fn G). unfold takesDeletionPath.
    rewrite A, U. reflexivity. }
  repeat split; auto.
  - apply stateAfterDeletionStep_invalidated.
  - rewrite Hrun. unfold suppressOrCheck. rewrite Hf, H. reflexivity.
  - rewrite Hrun. unfold suppressOrCheck. rewrite Hf, H.
    destruct (normalChecking_calls st) as (cs & E).
    exists cs. rewrite E, Hc. reflexivity.
  - intro S. rewrite Hrun.
    destruct (suppressOrCheck_suppressed st) as (st' & E & _ & Hc' & _).
    { rewrite Hf. exact S. }
    rewrite E. unfold callsOf, stateOf. rewrite Hc', Hc. reflexivity.
Qed.

(** C10: for a function that carries both attributes and gets past the
    entry gate, the deletion test comes first.  If the function is unused
    no component is called, the cleanup included, and a function with an
    entry block that has a first instruction is left with one block holding
    one unreachable and a reported change.  The cleanup of the
    suppress-diagnostics path is called exactly when the function is not
    unused, and is then the only component called. *)
Theorem deletion_test_precedes_suppression debug fn :
  passesEntryGate fn = true ->
  hasSemanticsAttr fn MOVEONLY_DELETE_IF_UNUSED = true ->
  hasSemanticsAttr fn NO_MOVEONLY_DIAGNOSTICS = true ->
  (isUnused fn = true ->
   callsOf (run debug fn) = [] /\
   forall entryBB rest first others,
     blocks fn = entryBB :: rest ->
     instructions entryBB = first :: others ->
     exists st',
       run debug fn = Returned st' /\
       blocks (function st') = [unreachableBlock entryBB (getLoc first)] /\
       invalidated st' = Some InvalidationKind.FunctionBody /\
       calls st' = []) /\
  (isUnused fn = false -> callsOf (run debug fn) = [CleanupCopies]) /\
  (called CleanupCopies (callsOf (run debug fn)) = true <-> isUnused fn = false).
Proof.
  intros G A S.
  assert (Hdel : isUnused fn = true ->
                 run debug fn =
                 deleteUnusedBody
                   (LLVM_DEBUG (fun _ => deletingMessage fn)
                      (initialState debug fn))).
  { intro U. rewrite (run_past_gate debug fn G). unfold takesDeletionPath.
    rewrite A, U. reflexivity. }
  assert (Hnone : isUnused fn = true -> callsOf (run debug fn) = []).
  { intro U. rewrite (Hdel U).
    destruct (deleteUnusedBody_calls
                (LLVM_DEBUG (fun _ => deletingMessage fn) (initialState debug fn)))
      as [E | E]; rewrite E; [reflexivity|].
    rewrite LLVM_DEBUG_calls. reflexivity. }
  assert (Hclean : isUnused fn = false -> callsOf (run debug fn) = [CleanupCopies]).
  { intro U. rewrite (run_past_gate debug fn G). unfold takesDeletionPath.
    rewrite A, U. cbn [andb].
    destruct (suppressOrCheck_suppressed (stateAfterDeletionStep debug fn))
      as (st' & E & _ & Hc' & _).
    { rewrite stateAfterDeletionStep_function. exact S. }
    rewrite E. unfold callsOf, stateOf.
    rewrite Hc', stateAfterDeletionStep_calls. reflexivity. }
  split; [|split].
  - intro U. split; [exact (Hnone U)|].
    intros entryBB rest first others Hb Hi. rewrite (Hdel U).
    set (st := LLVM_DEBUG _ _).
    assert (Hf : function st = fn) by (unfold st; apply LLVM_DEBUG_function).
    destruct (deleteUnusedBody_effect st entryBB rest first others)
      as (st' & Hrun & Hbl & _ & Hinv & Hc & _).
    { rewrite Hf. exact Hb. }
    { exact Hi. }
    exists st'. unfold st in Hc. rewrite LLVM_DEBUG_calls in Hc.
    repeat split; auto.
  - exact Hclean.
  - split.
    + intro Hc. destruct (isUnused fn) eqn:U; [|reflexivity].
      rewrite (Hnone eq_refl) in Hc. discriminate.
    + intro U. rewrite (Hclean U). reflexivity.
Qed.

End Properties.

(** ** Normal checking as a composition of its components *)

Section Composition.

Context {C : Collaborators}.

Lemma checkObjects_flow c st :
  flowOf (snd (checkObjects (c, st))) =
    objectFlow (domTree c) (poa c) (flowOf (c, st)) /\
  domTree (fst (snd (checkObjects (c, st)))) = domTree c /\
  poa (fst (snd (checkObjects (c, st)))) = poa c /\
  invalidated (snd (snd (checkObjects (c, st)))) = invalidated st /\
  diagnostics (snd (snd (checkObjects (c, st)))) = diagnostics st.
Proof.
  unfold checkObjects, bind, diagnosticCount, gets, searchObjects,
    orMadeChange, debug, modify, objectCheckerCheck, objectFlow, flowOf.
  cbn [fst snd flowFunction flowEmitter flowAllocator flowChanged flowCalls].
  destruct (searchForCandidateObjectMarkUnresolvedNonCopyableValueInsts _ _)
    as [[[changed wl] fn1] e1].
  destruct wl as [|i wl];
    cbn -[LLVM_DEBUG noMoveIntroducersMessage emittingDiagnosticMessage].
  - rewrite !LLVM_DEBUG_function, !LLVM_DEBUG_calls, !LLVM_DEBUG_invalidated,
      !LLVM_DEBUG_diagnostics. cbn. repeat split.
  - rewrite !LLVM_DEBUG_function. cbn [function setFunction recordCall].
    destruct (MoveOnlyObjectChecker_check _ _ _ _ _ _) as [[[changed2 fn2] e2] a2].
    cbn -[LLVM_DEBUG noMoveIntroducersMessage emittingDiagnosticMessage].
    rewrite !LLVM_DEBUG_calls, !LLVM_DEBUG_invalidated, !LLVM_DEBUG_diagnostics.
    cbn. rewrite <- app_assoc. repeat split.
Qed.

Lemma checkAddresses_flow c st :
  flowOf (snd (checkAddresses (c, st))) =
    addressFlow (domTree c) (poa c) (flowOf (c, st)) /\
  domTree (fst (snd (checkAddresses (c, st)))) = domTree c /\
  poa (fst (snd (checkAddresses (c, st)))) = poa c /\
  invalidated (snd (snd (checkAddresses (c, st)))) = invalidated st /\
  diagnostics (snd (snd (checkAddresses (c, st)))) = diagnostics st.
Proof.
  unfold checkAddresses, bind, diagnosticCount, gets, searchAddresses,
    orMadeChange, debug, modify, addressCheckerCheck, addressFlow, flowOf.
  cbn [fst snd flowFunction flowEmitter flowAllocator flowChanged flowCalls].
  destruct (searchForCandidateAddressMarkUnresolvedNonCopyableValueInsts _ _)
    as [[wl fn1] e1].
  destruct wl as [|i wl];
    cbn -[LLVM_DEBUG noMoveIntroducersMessage emittingDiagnosticMessage].
  - rewrite !LLVM_DEBUG_function, !LLVM_DEBUG_calls, !LLVM_DEBUG_invalidated,
      !LLVM_DEBUG_diagnostics. cbn. repeat split.
  - rewrite !LLVM_DEBUG_function. cbn [function setFunction recordCall].
    destruct (MoveOnlyAddressChecker_check _ _ _ _ _ _) as [[[changed2 fn2] e2] a2].
    cbn -[LLVM_DEBUG noMoveIntroducersMessage emittingDiagnosticMessage].
    rewrite !LLVM_DEBUG_calls, !LLVM_DEBUG_invalidated, !LLVM_DEBUG_diagnostics.
    cbn. rewrite <- app_assoc. repeat split.
Qed.

Lemma checkingPhases_snd p :
  snd (checkingPhases p) = snd (checkAddresses (snd (checkObjects p))).
Proof.
  unfold checkingPhases, bind. destruct (checkObjects p) as [u q]. reflexivity.
Qed.

Lemma checkingPhases_flow c st :
  flowOf (snd (checkingPhases (c, st))) =
    addressFlow (domTree c) (poa c)
      (objectFlow (domTree c) (poa c) (flowOf (c, st))) /\
  domTree (fst (snd (checkingPhases (c, st)))) = domTree c /\
  poa (fst (snd (checkingPhases (c, st)))) = poa c /\
  invalidated (snd (snd (checkingPhases (c, st)))) = invalidated st /\
  diagnostics (snd (snd (checkingPhases (c, st)))) = diagnostics st.
Proof.
  rewrite checkingPhases_snd.
  destruct (checkObjects_flow c st) as (F1 & D1 & P1 & I1 & G1).
  destruct (snd (checkObjects (c, st))) as [c1 st1]. cbn [fst snd] in *.
  destruct (checkAddresses_flow c1 st1) as (F2 & D2 & P2 & I2 & G2).
  rewrite F2, F1, D2, P2, I2, G2, D1, P1. repeat split; assumption.
Qed.

Lemma fallbackDiagnosis_flow p :
  flowOf (snd (fallbackDiagnosis p)) = sweepFlow (flowOf p) /\
  invalidated (snd (snd (fallbackDiagnosis p))) = invalidated (snd p) /\
  diagnostics (snd (snd (fallbackDiagnosis p))) = diagnostics (snd p).
Proof.
  destruct p as [c st]. rewrite fallbackDiagnosis_eq.
  unfold sweepFlow, flowOf, emitMissedCopyErrors.
  cbn [fst snd flowFunction flowEmitter flowAllocator flowChanged flowCalls].
  destruct (emittedDiagnostic (diagnosticEmitter c)); [cbn; auto|].
  destruct (emitCheckerMissedCopyOfNonCopyableTypeErrors _ _) as [fn1 e1].
  cbn. auto.
Qed.

Lemma repair_flow p :
  flowOf (snd (repair p)) = cleanupFlow (flowOf p) /\
  invalidated (snd (snd (repair p))) =
    (if flowChanged (cleanupFlow (flowOf p))
     then Some InvalidationKind.Instructions else invalidated (snd p)) /\
  diagnostics (snd (snd (repair p))) = diagnostics (snd p).
Proof.
  destruct p as [c st].
  unfold repair, bind, cleanupCopies, orMadeChange, modify, gets, ret,
    cleanupFlow, flowOf.
  cbn [fst snd flowFunction flowEmitter flowAllocator flowChanged flowCalls].
  destruct (cleanupNonCopyableCopiesAfterEmittingDiagnostic _) as [changed fn1].
  cbn. destruct (madeChange c || changed); cbn; auto.
Qed.

Lemma flowOf_checkerStart debug fn :
  flowOf (checkerStart (stateAfterDeletionStep debug fn)) = flowStart fn /\
  domTree (fst (checkerStart (stateAfterDeletionStep debug fn)))
    = getDominanceInfo fn /\
  poa (fst (checkerStart (stateAfterDeletionStep debug fn)))
    = getPostOrderAnalysis /\
  invalidated (snd (checkerStart (stateAfterDeletionStep debug fn))) = None.
Proof.
  unfold flowOf, checkerStart, flowStart. cbn [fst snd].
  rewrite LLVM_DEBUG_function, LLVM_DEBUG_calls, LLVM_DEBUG_invalidated,
    stateAfterDeletionStep_function, stateAfterDeletionStep_calls,
    stateAfterDeletionStep_invalidated.
  cbn. auto.
Qed.

(** Normal checking leaves what the composition of the components gives. *)
Lemma normalChecking_flow debug fn :
  exists st',
    normalChecking (stateAfterDeletionStep debug fn) = Returned st' /\
    function st' = flowFunction (normalFlow fn) /\
    diagnostics st' = recorded (flowEmitter (normalFlow fn)) /\
    calls st' = flowCalls (normalFlow fn) /\
    invalidated st' =
      (if flowChanged (normalFlow fn)
       then Some InvalidationKind.Instructions else None).
Proof.
  rewrite normalChecking_eq. cbv zeta.
  destruct (flowOf_checkerStart debug fn) as (F0 & D0 & P0 & I0).
  destruct (checkerStart (stateAfterDeletionStep debug fn)) as [c0 st0].
  cbn [fst snd] in *.
  destruct (checkingPhases_flow c0 st0) as (F1 & _ & _ & I1 & _).
  rewrite D0, P0, F0 in F1. rewrite I0 in I1.
  destruct (fallbackDiagnosis_flow (snd (checkingPhases (c0, st0))))
    as (F2 & I2 & _).
  rewrite F1 in F2. rewrite I1 in I2.
  destruct (repair_flow (snd (fallbackDiagnosis (snd (checkingPhases (c0, st0))))))
    as (F3 & I3 & _).
  rewrite F2 in F3, I3. rewrite I2 in I3. fold (normalFlow fn) in F3, I3.
  eexists. split; [reflexivity|].
  unfold setDiagnostics. cbn [function diagnostics calls invalidated].
  rewrite <- F3. unfold flowOf.
  cbn [flowFunction flowEmitter flowCalls]. rewrite I3, <- F3. unfold flowOf.
  cbn [flowChanged]. repeat split.
Qed.

End Composition.

(** ** More properties of the pass *)

Section Further.

Context {C : Collaborators}.

(** [run], test by test. *)
Lemma run_cases debug fn :
  run debug fn =
  if negb (supportsMoveOnlyTypes (getASTContext (getModule fn))) then
    Returned (initialState debug fn)
  else if wasDeserializedCanonical fn then
    Returned (initialState debug fn)
  else if negb (SILStage.eqb (getStage (getModule fn)) SILStage.Raw) then
    AssertionFailure assertionMessage (initialState debug fn)
  else if takesDeletionPath fn then
    deleteUnusedBody
      (LLVM_DEBUG (fun _ => deletingMessage fn) (initialState debug fn))
  else suppressOrCheck (stateAfterDeletionStep debug fn).
Proof.
  unfold run, runFrom, takesDeletionPath, stateAfterDeletionStep.
  cbn [function initialState].
  destruct (supportsMoveOnlyTypes _); cbn [negb]; [|reflexivity].
  destruct (wasDeserializedCanonical fn); [reflexivity|].
  destruct (SILStage.eqb _ _); cbn [negb]; [|reflexivity].
  destruct (hasSemanticsAttr fn MOVEONLY_DELETE_IF_UNUSED); cbn [andb];
    [destruct (isUnused fn)|]; reflexivity.
Qed.

Lemma passesEntryGate_false_run debug fn :
  passesEntryGate fn = false ->
  run debug fn = Returned (initialState debug fn) \/
  run debug fn = AssertionFailure assertionMessage (initialState debug fn).
Proof.
  intro G. rewrite run_cases. unfold passesEntryGate in G.
  destruct (supportsMoveOnlyTypes _); cbn [negb]; [|auto].
  destruct (wasDeserializedCanonical fn); [auto|].
  destruct (SILStage.eqb _ _); cbn [negb]; [discriminate|auto].
Qed.

(** What the deletion leaves of a function. *)
Definition deletedForm (fn : SILFunction) (entryBB : SILBasicBlock)
  (loc : SILLocation) : SILFunction :=
  {| getName := getName fn;
     getModule := getModule fn;
     blocks := [unreachableBlock entryBB loc];
     getSemanticsAttrs := getSemanticsAttrs fn;
     getLinkage :=
       if SILLinkage.eqb (getLinkage fn) SILLinkage.Shared
       then SILLinkage.Private else getLinkage fn;
     getRefCount := getRefCount fn;
     wasDeserializedCanonical := wasDeserializedCanonical fn |}.

Lemma deleteUnusedBody_deletedForm st entryBB rest first others :
  blocks (function st) = entryBB :: rest ->
  instructions entryBB = first :: others ->
  deleteUnusedBody st =
  Returned (invalidateAnalysis InvalidationKind.FunctionBody
              (setFunction (deletedForm (function st) entryBB (getLoc first)) st)).
Proof.
  intros Hb Hi. unfold deleteUnusedBody. rewrite Hb, Hi.
  rewrite eraseNonEntryBlocks_nil. cbn [setBlocks getLinkage].
  unfold deletedForm, unreachableBlock, createUnreachable, eraseAllInstructions.
  cbn [getArguments instructions app].
  destruct (SILLinkage.eqb (getLinkage (function st)) SILLinkage.Shared);
    reflexivity.
Qed.

Lemma run_deletion debug fn entryBB rest first others :
  passesEntryGate fn = true ->
  takesDeletionPath fn = true ->
  blocks fn = entryBB :: rest ->
  instructions entryBB = first :: others ->
  run debug fn =
  Returned (invalidateAnalysis InvalidationKind.FunctionBody
              (setFunction (deletedForm fn entryBB (getLoc first))
                 (LLVM_DEBUG (fun _ => deletingMessage fn)
                    (initialState debug fn)))).
Proof.
  intros G D Hb Hi. rewrite (run_past_gate debug fn G), D.
  set (st := LLVM_DEBUG _ _).
  assert (Hf : function st = fn) by (unfold st; apply LLVM_DEBUG_function).
  rewrite (deleteUnusedBody_deletedForm st entryBB rest first others);
    [rewrite Hf; reflexivity | rewrite Hf; exact Hb | exact Hi].
Qed.

(** X1: the deletion changes the blocks and the linkage and nothing else:
    the name, the module, the semantics attributes (the deletion mark
    included), the reference count and the deserialization flag stay, and
    the one block left is the entry block, with its arguments, holding an
    unreachable at the location of the entry block's old first instruction. *)
Theorem deletion_keeps_the_rest_of_the_function
  debug fn entryBB rest first others :
  passesEntryGate fn = true ->
  takesDeletionPath fn = true ->
  blocks fn = entryBB :: rest ->
  instructions entryBB = first :: others ->
  exists st' bb,
    run debug fn = Returned st' /\
    getName (function st') = getName fn /\
    getModule (function st') = getModule fn /\
    getSemanticsAttrs (function st') = getSemanticsAttrs fn /\
    getRefCount (function st') = getRefCount fn /\
    wasDeserializedCanonical (function st') = wasDeserializedCanonical fn /\
    blocks (function st') = [bb] /\
    getArguments bb = getArguments entryBB /\
    map getLoc (instructions bb) = [getLoc first].
Proof.
  intros G D Hb Hi.
  rewrite (run_deletion debug fn entryBB rest first others G D Hb Hi).
  eexists _, _. split; [reflexivity|]. cbn. repeat split.
Qed.

Lemma deletedForm_fixed fn entryBB loc :
  let fn1 := deletedForm fn entryBB loc in
  deletedForm fn1 (unreachableBlock entryBB loc) loc = fn1.
Proof.
  unfold deletedForm, unreachableBlock. cbn.
  destruct (SILLinkage.eqb (getLinkage fn) SILLinkage.Shared) eqn:E;
    cbn; [reflexivity|]. rewrite E. reflexivity.
Qed.

(** X2: the deletion is idempotent.  When the linkage the deletion leaves
    is still not possibly used externally, the pass run again on the
    function it left takes the deletion path again, leaves the same
    function and reports a change again. *)
Theorem deletion_is_idempotent debug fn entryBB rest first others :
  passesEntryGate fn = true ->
  takesDeletionPath fn = true ->
  blocks fn = entryBB :: rest ->
  instructions entryBB = first :: others ->
  (getLinkage fn = SILLinkage.Shared ->
   isPossiblyUsedExternally SILLinkage.Private (isWholeModule (getModule fn))
   = false) ->
  exists st' st'',
    run debug fn = Returned st' /\
    run debug (function st') = Returned st'' /\
    function st'' = function st' /\
    invalidated st'' = Some InvalidationKind.FunctionBody /\
    calls st'' = [].
Proof.
  intros G D Hb Hi Hp.
  rewrite (run_deletion debug fn entryBB rest first others G D Hb Hi).
  set (fn1 := deletedForm fn entryBB (getLoc first)).
  assert (G1 : passesEntryGate fn1 = true) by exact G.
  assert (D1 : takesDeletionPath fn1 = true).
  { unfold takesDeletionPath, isUnused in *.
    apply andb_true_iff in D. destruct D as [A U].
    apply andb_true_iff in U. destruct U as [R E].
    apply andb_true_iff. split; [exact A|].
    apply andb_true_iff. split; [exact R|].
    unfold fn1, deletedForm. cbn [getLinkage getModule].
    destruct (SILLinkage.eqb (getLinkage fn) SILLinkage.Shared) eqn:S.
    - apply linkage_eqb_eq in S. rewrite (Hp S). reflexivity.
    - exact E. }
  eexists _, _. split; [reflexivity|].
  cbn [function setFunction invalidateAnalysis].
  rewrite (run_deletion debug fn1 (unreachableBlock entryBB (getLoc first)) []
             {| getKind := UnreachableInst; getLoc := getLoc first |} []
             G1 D1 eq_refl eq_refl).
  split; [reflexivity|].
  cbn [function setFunction invalidateAnalysis invalidated calls getLoc].
  rewrite LLVM_DEBUG_calls. cbn [calls initialState].
  repeat split. apply deletedForm_fixed.
Qed.

(** X3: for a function that reaches normal checking, the function the pass
    leaves, its diagnostics, the components it calls and the change it
    reports are those of one composition: the object search, the object
    engine unless its worklist is empty, the address search, the address
    engine unless its worklist is empty, the sweep unless the emitter has
    emitted, the cleanup.  Each component works on the function, the
    emitter and the allocator as the one before left them; both engines are
    given the dominance info and post-order analysis obtained for the
    function as it came in; a change is reported exactly when one of the
    flags gathered on the way is set. *)
Theorem normal_checking_is_the_composition debug fn :
  reachesNormalChecking fn = true ->
  exists st',
    run debug fn = Returned st' /\
    function st' = flowFunction (normalFlow fn) /\
    diagnostics st' = recorded (flowEmitter (normalFlow fn)) /\
    calls st' = flowCalls (normalFlow fn) /\
    reportedChange st' = flowChanged (normalFlow fn) /\
    invalidated st' =
      (if flowChanged (normalFlow fn)
       then Some InvalidationKind.Instructions else None).
Proof.
  intro H. rewrite (run_reaches_normalChecking debug fn H).
  destruct (normalChecking_flow debug fn) as (st' & E & Hf & Hd & Hc & Hi).
  exists st'. repeat split; auto.
  unfold reportedChange. rewrite Hi.
  destruct (flowChanged (normalFlow fn)); reflexivity.
Qed.

Lemma objectFlow_changed dom po x :
  flowChanged x = true -> flowChanged (objectFlow dom po x) = true.
Proof.
  intro H. unfold objectFlow.
  destruct (searchForCandidateObjectMarkUnresolvedNonCopyableValueInsts _ _)
    as [[[changed wl] fn1] e1].
  destruct (empty wl); [cbn; rewrite H; reflexivity|].
  destruct (MoveOnlyObjectChecker_check _ _ _ _ _ _) as [[[changed2 fn2] e2] a2].
  cbn. rewrite H. reflexivity.
Qed.

Lemma addressFlow_changed dom po x :
  flowChanged x = true -> flowChanged (addressFlow dom po x) = true.
Proof.
  intro H. unfold addressFlow.
  destruct (searchForCandidateAddressMarkUnresolvedNonCopyableValueInsts _ _)
    as [[wl fn1] e1].
  destruct (empty wl); [cbn; exact H|].
  destruct (MoveOnlyAddressChecker_check _ _ _ _ _ _) as [[[changed2 fn2] e2] a2].
  cbn. rewrite H. reflexivity.
Qed.

Lemma sweepFlow_changed x : flowChanged (sweepFlow x) = flowChanged x.
Proof.
  unfold sweepFlow. destruct (emittedDiagnostic (flowEmitter x)); [reflexivity|].
  destruct (emitCheckerMissedCopyOfNonCopyableTypeErrors _ _) as [fn1 e1].
  reflexivity.
Qed.

Lemma cleanupFlow_changed x :
  flowChanged x = true -> flowChanged (cleanupFlow x) = true.
Proof.
  intro H. unfold cleanupFlow.
  destruct (cleanupNonCopyableCopiesAfterEmittingDiagnostic _) as [changed fn1].
  cbn. rewrite H. reflexivity.
Qed.

(** X4: a change the object search reports is never lost.  For a function
    that reaches normal checking, if the object search, called on the
    function as it came in with a fresh emitter, returns true, the pass
    reports a change by invalidating the instructions, whatever the engines,
    the address search, the sweep and the cleanup do afterwards. *)
Theorem object_search_change_is_reported debug fn :
  reachesNormalChecking fn = true ->
  fst (fst (fst (searchForCandidateObjectMarkUnresolvedNonCopyableValueInsts
                   fn newDiagnosticEmitter))) = true ->
  exists st',
    run debug fn = Returned st' /\
    reportedChange st' = true /\
    invalidated st' = Some InvalidationKind.Instructions.
Proof.
  intros H S. rewrite (run_reaches_normalChecking debug fn H).
  destruct (normalChecking_flow debug fn) as (st' & E & _ & _ & _ & Hi).
  assert (Hc : flowChanged (normalFlow fn) = true).
  { unfold normalFlow.
    apply cleanupFlow_changed. rewrite sweepFlow_changed.
    apply addressFlow_changed.
    unfold objectFlow, flowStart.
    cbn [flowFunction flowEmitter flowAllocator flowChanged flowCalls].
    destruct (searchForCandidateObjectMarkUnresolvedNonCopyableValueInsts _ _)
      as [[[changed wl] fn1] e1].
    cbn in S. subst changed.
    destruct (empty wl); [reflexivity|].
    destruct (MoveOnlyObjectChecker_check _ _ _ _ _ _) as [[[changed2 fn2] e2] a2].
    reflexivity. }
  rewrite Hc in Hi. exists st'. repeat split; auto.
  unfold reportedChange. rewrite Hi. reflexivity.
Qed.

Lemma normalFlow_unchanged fn :
  neverChanges -> flowChanged (normalFlow fn) = false.
Proof.
  intros (N1 & N2 & N3 & N4). unfold normalFlow.
  set (dom := getDominanceInfo fn). set (po := getPostOrderAnalysis).
  assert (H1 : flowChanged (objectFlow dom po (flowStart fn)) = false).
  { unfold objectFlow, flowStart.
    cbn [flowFunction flowEmitter flowAllocator flowChanged flowCalls].
    pose proof (N1 fn newDiagnosticEmitter) as S.
    destruct (searchForCandidateObjectMarkUnresolvedNonCopyableValueInsts _ _)
      as [[[changed wl] fn1] e1].
    cbn in S. subst changed.
    destruct (empty wl); [reflexivity|].
    pose proof (N2 dom po wl fn1 e1 newAllocator) as S2.
    destruct (MoveOnlyObjectChecker_check _ _ _ _ _ _) as [[[changed2 fn2] e2] a2].
    cbn in S2. subst changed2. reflexivity. }
  set (x1 := objectFlow dom po (flowStart fn)) in *.
  assert (H2 : flowChanged (addressFlow dom po x1) = false).
  { unfold addressFlow.
    destruct (searchForCandidateAddressMarkUnresolvedNonCopyableValueInsts _ _)
      as [[wl fn1] e1].
    destruct (empty wl); [exact H1|].
    pose proof (N3 dom po wl fn1 e1 (flowAllocator x1)) as S2.
    destruct (MoveOnlyAddressChecker_check _ _ _ _ _ _) as [[[changed2 fn2] e2] a2].
    cbn in S2. subst changed2. cbn. rewrite H1. reflexivity. }
  set (x2 := addressFlow dom po x1) in *.
  pose proof (sweepFlow_changed x2) as H3. rewrite H2 in H3.
  set (x3 := sweepFlow x2) in *.
  unfold cleanupFlow. pose proof (N4 (flowFunction x3)) as S4.
  destruct (cleanupNonCopyableCopiesAfterEmittingDiagnostic _) as [changed fn1].
  cbn in S4. subst changed. cbn. rewrite H3. reflexivity.
Qed.

(** X5: no invalidation without a change.  When no component ever says it
    changed the function, the pass reports no change for any function it
    does not delete: not at the early returns, not on the
    suppress-diagnostics path, not after normal checking. *)
Theorem no_invalidation_without_a_change debug fn st' :
  neverChanges ->
  passesEntryGate fn && takesDeletionPath fn = false ->
  run debug fn = Returned st' ->
  invalidated st' = None /\ reportedChange st' = false.
Proof.
  intros N D E.
  assert (Hi : invalidated st' = None).
  { destruct (passesEntryGate fn) eqn:G.
    - cbn [andb] in D. rewrite (run_past_gate debug fn G), D in E.
      unfold suppressOrCheck in E.
      destruct (hasSemanticsAttr _ NO_MOVEONLY_DIAGNOSTICS) eqn:S.
      + unfold cleanupCopies in E.
        destruct N as (_ & _ & _ & N4).
        pose proof (N4 (function (stateAfterDeletionStep debug fn))) as S4.
        destruct (cleanupNonCopyableCopiesAfterEmittingDiagnostic _)
          as [changed fn1].
        cbn in S4. subst changed. injection E as <-.
        cbn. apply stateAfterDeletionStep_invalidated.
      + destruct (normalChecking_flow debug fn) as (st2 & E2 & _ & _ & _ & Hi).
        rewrite E2 in E. injection E as <-.
        rewrite Hi, (normalFlow_unchanged fn N). reflexivity.
    - destruct (passesEntryGate_false_run debug fn G) as [R | R];
        rewrite R in E; [injection E as <-; reflexivity | discriminate]. }
  split; [exact Hi|]. unfold reportedChange. rewrite Hi. reflexivity.
Qed.

(** X6: the checker's dominance info and post-order analysis are fixed when
    the checker is made: both methods leave them as they are, so after the
    two phases they are still the ones obtained for the function as it came
    in, also when the object phase has changed the function. *)
Theorem analyses_are_obtained_once debug fn :
  (forall c st,
     domTree (fst (snd (checkObjects (c, st)))) = domTree c /\
     poa (fst (snd (checkObjects (c, st)))) = poa c) /\
  (forall c st,
     domTree (fst (snd (checkAddresses (c, st)))) = domTree c /\
     poa (fst (snd (checkAddresses (c, st)))) = poa c) /\
  domTree (fst (stateAfterPhases debug fn)) = getDominanceInfo fn /\
  poa (fst (stateAfterPhases debug fn)) = getPostOrderAnalysis.
Proof.
  split; [|split].
  - intros c st. destruct (checkObjects_flow c st) as (_ & D & P & _). auto.
  - intros c st. destruct (checkAddresses_flow c st) as (_ & D & P & _). auto.
  - unfold stateAfterPhases.
    destruct (flowOf_checkerStart debug fn) as (_ & D0 & P0 & _).
    destruct (checkerStart (stateAfterDeletionStep debug fn)) as [c0 st0].
    destruct (checkingPhases_flow c0 st0) as (_ & D & P & _).
    cbn [fst] in D0, P0. rewrite D, P, D0, P0. auto.
Qed.

Lemma normalFlow_calls fn :
  exists cs,
    flowCalls (normalFlow fn) = cs ++ [CleanupCopies] /\
    called CleanupCopies cs = false /\
    (called EmitMissedCopyErrors cs = true <->
     recorded (flowEmitter
                 (addressFlow (getDominanceInfo fn) getPostOrderAnalysis
                    (objectFlow (getDominanceInfo fn) getPostOrderAnalysis
                       (flowStart fn)))) = []).
Proof.
  unfold normalFlow.
  set (dom := getDominanceInfo fn). set (po := getPostOrderAnalysis).
  assert (H1 : forallb checkingCall
                 (flowCalls (objectFlow dom po (flowStart fn))) = true).
  { unfold objectFlow, flowStart.
    cbn [flowFunction flowEmitter flowAllocator flowChanged flowCalls].
    destruct (searchForCandidateObjectMarkUnresolvedNonCopyableValueInsts _ _)
      as [[[changed wl] fn1] e1].
    destruct (empty wl); [reflexivity|].
    destruct (MoveOnlyObjectChecker_check _ _ _ _ _ _) as [[[changed2 fn2] e2] a2].
    reflexivity. }
  set (x1 := objectFlow dom po (flowStart fn)) in *.
  assert (H2 : forallb checkingCall (flowCalls (addressFlow dom po x1)) = true).
  { unfold addressFlow.
    destruct (searchForCandidateAddressMarkUnresolvedNonCopyableValueInsts _ _)
      as [[wl fn1] e1].
    destruct (empty wl).
    - cbn. rewrite forallb_app, H1. reflexivity.
    - destruct (MoveOnlyAddressChecker_check _ _ _ _ _ _)
        as [[[changed2 fn2] e2] a2].
      cbn. rewrite forallb_app, H1. reflexivity. }
  set (x2 := addressFlow dom po x1) in *.
  exists (flowCalls (sweepFlow x2)). split; [|split].
  - unfold cleanupFlow.
    destruct (cleanupNonCopyableCopiesAfterEmittingDiagnostic _) as [changed fn1].
    reflexivity.
  - unfold sweepFlow.
    destruct (emittedDiagnostic (flowEmitter x2)).
    + apply (called_checkingCalls CleanupCopies _ H2 eq_refl).
    + destruct (emitCheckerMissedCopyOfNonCopyableTypeErrors _ _) as [fn1 e1].
      cbn [flowCalls]. rewrite called_app.
      rewrite (called_checkingCalls CleanupCopies _ H2 eq_refl). reflexivity.
  - rewrite <- emittedDiagnostic_false. unfold sweepFlow.
    destruct (emittedDiagnostic (flowEmitter x2)).
    + rewrite (called_checkingCalls EmitMissedCopyErrors _ H2 eq_refl).
      split; discriminate.
    + destruct (emitCheckerMissedCopyOfNonCopyableTypeErrors _ _) as [fn1 e1].
      cbn [flowCalls]. rewrite called_app.
      rewrite (called_checkingCalls EmitMissedCopyErrors _ H2 eq_refl).
      cbn. split; reflexivity.
Qed.

(** What [run] leaves when it gets past the deletion step. *)
Lemma suppressOrCheck_shape debug fn :
  exists st' cs,
    suppressOrCheck (stateAfterDeletionStep debug fn) = Returned st' /\
    calls st' = cs ++ [CleanupCopies] /\
    called CleanupCopies cs = false /\
    (invalidated st' = None \/
     invalidated st' = Some InvalidationKind.Instructions) /\
    (hasSemanticsAttr fn NO_MOVEONLY_DIAGNOSTICS = true -> diagnostics st' = []).
Proof.
  destruct (hasSemanticsAttr fn NO_MOVEONLY_DIAGNOSTICS) eqn:S.
  - destruct (suppressOrCheck_suppressed (stateAfterDeletionStep debug fn))
      as (st' & E & _ & Hc & Hd & Hi).
    { rewrite stateAfterDeletionStep_function. exact S. }
    rewrite stateAfterDeletionStep_calls in Hc.
    rewrite stateAfterDeletionStep_diagnostics in Hd.
    rewrite stateAfterDeletionStep_invalidated in Hi.
    exists st', []. repeat split; auto.
    rewrite Hi. destruct (fst _); auto.
  - unfold suppressOrCheck. rewrite stateAfterDeletionStep_function, S.
    destruct (normalChecking_flow debug fn) as (st' & E & _ & _ & Hc & Hi).
    destruct (normalFlow_calls fn) as (cs & Hcs & Hn & _).
    exists st', cs. rewrite E, Hc, Hcs, Hi. repeat split; auto.
    + destruct (flowChanged (normalFlow fn)); auto.
    + discriminate.
Qed.

(** X7: the kind of invalidation tells the path.  When the pass returns,
    it has invalidated the function body exactly when it got past the entry
    gate and took the deletion path; and it has invalidated the instructions
    only after calling the cleanup. *)
Theorem invalidation_kind_tells_the_path debug fn st' :
  run debug fn = Returned st' ->
  (invalidated st' = Some InvalidationKind.FunctionBody <->
   passesEntryGate fn && takesDeletionPath fn = true) /\
  (invalidated st' = Some InvalidationKind.Instructions ->
   called CleanupCopies (calls st') = true).
Proof.
  intro E. destruct (passesEntryGate fn) eqn:G; cbn [andb].
  - rewrite (run_past_gate debug fn G) in E.
    destruct (takesDeletionPath fn) eqn:D.
    + unfold deleteUnusedBody in E.
      destruct (blocks _) as [|entryBB rest]; [discriminate|].
      destruct (instructions entryBB) as [|first others]; [discriminate|].
      injection E as <-. cbn. split; [split; auto|discriminate].
    + destruct (suppressOrCheck_shape debug fn)
        as (st2 & cs & E2 & Hc & _ & Hi & _).
      rewrite E2 in E. injection E as <-. split.
      * split; [|discriminate].
        destruct Hi as [Hi | Hi]; rewrite Hi; discriminate.
      * intros _. rewrite Hc, called_app. cbn. apply orb_true_r.
  - destruct (passesEntryGate_false_run debug fn G) as [R | R];
      rewrite R in E; [injection E as <- | discriminate].
    cbn. split; [split|]; discriminate.
Qed.

(** X8: on every path, either no component is called at all or the cleanup
    is: it is then the last component called and it is called once. *)
Theorem cleanup_closes_every_run_that_calls_a_component debug fn :
  callsOf (run debug fn) = [] \/
  exists cs,
    callsOf (run debug fn) = cs ++ [CleanupCopies] /\
    called CleanupCopies cs = false.
Proof.
  destruct (passesEntryGate fn) eqn:G.
  - rewrite (run_past_gate debug fn G).
    destruct (takesDeletionPath fn).
    + left.
      destruct (deleteUnusedBody_calls
                  (LLVM_DEBUG (fun _ => deletingMessage fn)
                     (initialState debug fn))) as [E | E];
        rewrite E; [reflexivity|].
      rewrite LLVM_DEBUG_calls. reflexivity.
    + right. destruct (suppressOrCheck_shape debug fn)
        as (st2 & cs & E2 & Hc & Hn & _).
      exists cs. rewrite E2. unfold callsOf, stateOf. auto.
  - left. destruct (passesEntryGate_false_run debug fn G) as [R | R];
      rewrite R; reflexivity.
Qed.

(** X9: diagnostics come from normal checking alone: a function that does
    not reach it, because it is gated out, trips the assertion, is deleted
    or carries the suppress-diagnostics attribute, gets no diagnostic. *)
Theorem no_diagnostic_without_normal_checking debug fn :
  reachesNormalChecking fn = false ->
  diagnosticsOf (run debug fn) = [].
Proof.
  intro H. destruct (passesEntryGate fn) eqn:G.
  - rewrite (run_past_gate debug fn G).
    unfold reachesNormalChecking in H. rewrite G in H. cbn [andb] in H.
    destruct (takesDeletionPath fn) eqn:D.
    + unfold deleteUnusedBody.
      destruct (blocks _) as [|entryBB rest]; [reflexivity|].
      destruct (instructions entryBB) as [|first others]; [reflexivity|].
      unfold diagnosticsOf, stateOf. cbn. rewrite LLVM_DEBUG_diagnostics.
      reflexivity.
    + cbn in H. apply negb_false_iff in H.
      destruct (suppressOrCheck_shape debug fn)
        as (st2 & cs & E2 & _ & _ & _ & Hd).
      rewrite E2. unfold diagnosticsOf, stateOf. auto.
  - destruct (passesEntryGate_false_run debug fn G) as [R | R];
      rewrite R; reflexivity.
Qed.

(** X10: the pass reads through an end iterator exactly when a function
    that is past the entry gate and on the deletion path has no block, or
    has an entry block without instructions. *)
Theorem undefined_behavior_iff_deleting_without_entry_instruction debug fn :
  run debug fn = UndefinedBehavior <->
  passesEntryGate fn = true /\
  takesDeletionPath fn = true /\
  (blocks fn = [] \/
   exists entryBB rest, blocks fn = entryBB :: rest /\ instructions entryBB = []).
Proof.
  split.
  - intro E. destruct (passesEntryGate fn) eqn:G.
    + rewrite (run_past_gate debug fn G) in E.
      destruct (takesDeletionPath fn) eqn:D.
      * split; [reflexivity|]. split; [reflexivity|].
        unfold deleteUnusedBody in E. rewrite LLVM_DEBUG_function in E.
        cbn [function initialState] in E.
        destruct (blocks fn) as [|entryBB rest]; [left; reflexivity|].
        right. exists entryBB, rest. split; [reflexivity|].
        destruct (instructions entryBB); [reflexivity|discriminate].
      * destruct (suppressOrCheck_shape debug fn) as (st2 & cs & E2 & _).
        rewrite E2 in E. discriminate.
    + destruct (passesEntryGate_false_run debug fn G) as [R | R];
        rewrite R in E; discriminate.
  - intros (G & D & Hb). rewrite (run_past_gate debug fn G), D.
    unfold deleteUnusedBody. rewrite LLVM_DEBUG_function.
    cbn [function initialState].
    destruct Hb as [Hb | (entryBB & rest & Hb & Hi)]; rewrite Hb;
      [|rewrite Hi]; reflexivity.
Qed.

(** X11: the assertion fails exactly when move-only types are supported,
    the function was not deserialized and the stage is not raw: a disabled
    feature or a deserialized function returns before the stage is looked
    at, whatever the stage is. *)
Theorem assertion_fails_iff_checked_in_wrong_stage debug fn :
  (exists msg st', run debug fn = AssertionFailure msg st') <->
  supportsMoveOnlyTypes (getASTContext (getModule fn)) = true /\
  wasDeserializedCanonical fn = false /\
  getStage (getModule fn) <> SILStage.Raw.
Proof.
  rewrite run_cases.
  destruct (supportsMoveOnlyTypes _); cbn [negb].
  2: { split; [intros (msg & st' & E); discriminate
              | intros (F & _); discriminate]. }
  destruct (wasDeserializedCanonical fn).
  { split; [intros (msg & st' & E); discriminate
           | intros (_ & F & _); discriminate]. }
  destruct (SILStage.eqb _ _) eqn:S; cbn [negb].
  - apply stage_eqb_eq in S. split.
    + intros (msg & st' & E). exfalso.
      destruct (takesDeletionPath fn).
      * unfold deleteUnusedBody in E.
        destruct (blocks _) as [|entryBB rest]; [discriminate|].
        destruct (instructions entryBB); discriminate.
      * destruct (suppressOrCheck_shape debug fn) as (st2 & cs & E2 & _).
        rewrite E2 in E. discriminate.
    + intros (_ & _ & F). contradiction.
  - split.
    + intros _. repeat split. intro F. apply stage_eqb_eq in F. congruence.
    + intros _. eexists _, _. reflexivity.
Qed.

Lemma quiet_suppressOrCheck st1 st2 :
  quiet st1 = quiet st2 ->
  quietOutcome (suppressOrCheck st1) = quietOutcome (suppressOrCheck st2).
Proof.
  intro H. unfold suppressOrCheck. rewrite (quiet_function _ _ H).
  destruct (hasSemanticsAttr _ NO_MOVEONLY_DIAGNOSTICS).
  - destruct (quiet_cleanupCopies st1 st2 H) as [H1 H2].
    destruct (cleanupCopies st1) as [b1 s1], (cleanupCopies st2) as [b2 s2].
    cbn in H1, H2. subst b2.
    destruct b1; cbn; f_equal; auto using quiet_invalidateAnalysis.
  - apply quiet_normalChecking. exact H.
Qed.

Lemma quiet_setFunction f st1 st2 :
  quiet st1 = quiet st2 -> quiet (setFunction f st1) = quiet (setFunction f st2).
Proof.
  intro H. unfold quiet, setFunction in *. cbn in *.
  injection H as Hf Hd Hi Hc. congruence.
Qed.

Lemma quiet_deleteUnusedBody st1 st2 :
  quiet st1 = quiet st2 ->
  quietOutcome (deleteUnusedBody st1) = quietOutcome (deleteUnusedBody st2).
Proof.
  intro H. unfold deleteUnusedBody. rewrite (quiet_function _ _ H).
  destruct (blocks _) as [|entryBB rest]; [reflexivity|].
  destruct (instructions entryBB) as [|first others]; [reflexivity|].
  cbn [quietOutcome]. f_equal.
  apply quiet_invalidateAnalysis, quiet_setFunction. exact H.
Qed.

(** X12: on every path the outcome of the pass is the same with the
    debugging output on and off, the stream apart: the same way of ending,
    the same function, diagnostics, calls and reported change. *)
Theorem debugging_output_never_changes_the_outcome fn :
  quietOutcome (run true fn) = quietOutcome (run false fn).
Proof.
  rewrite !run_cases.
  destruct (supportsMoveOnlyTypes _); cbn [negb]; [|reflexivity].
  destruct (wasDeserializedCanonical fn); [reflexivity|].
  destruct (SILStage.eqb _ _); cbn [negb]; [|reflexivity].
  destruct (takesDeletionPath fn).
  - apply quiet_deleteUnusedBody. rewrite !quiet_LLVM_DEBUG. reflexivity.
  - apply quiet_suppressOrCheck, quiet_stateAfterDeletionStep.
Qed.

(** X13: a checked function is never accepted in silence without the
    sweep: when a function reaches normal checking and the pass emits no
    diagnostic for it, the sweep for missed copies was called. *)
Theorem silent_acceptance_has_been_swept debug fn :
  reachesNormalChecking fn = true ->
  diagnosticsOf (run debug fn) = [] ->
  called EmitMissedCopyErrors (callsOf (run debug fn)) = true.
Proof.
  intros H. rewrite (run_reaches_normalChecking debug fn H).
  destruct (normalChecking_flow debug fn) as (st' & E & _ & Hd & Hc & _).
  rewrite E. unfold diagnosticsOf, callsOf, stateOf. rewrite Hd, Hc.
  intro Hnil.
  destruct (normalFlow_calls fn) as (cs & Hcs & _ & Hs).
  rewrite Hcs, called_app. apply orb_true_iff. left. apply Hs.
  unfold normalFlow in Hnil.
  set (x2 := addressFlow _ _ _) in *.
  assert (Hk : flowEmitter (cleanupFlow (sweepFlow x2)) = flowEmitter (sweepFlow x2)).
  { unfold cleanupFlow.
    destruct (cleanupNonCopyableCopiesAfterEmittingDiagnostic _) as [ch f1].
    reflexivity. }
  rewrite Hk in Hnil. unfold sweepFlow in Hnil.
  destruct (emittedDiagnostic (flowEmitter x2)) eqn:Em; [exact Hnil|].
  apply emittedDiagnostic_false. exact Em.
Qed.

End Further.

(** ** The pass on the functions of [Sample] *)

Section Runs.

Import Sample.

Example run_plain :
  callsOf (run false plain) =
    [SearchObjects; CheckObjects; SearchAddresses; CleanupCopies] /\
  diagnosticsOf (run false plain) = [consumedTwice].
Proof. split; reflexivity. Qed.

(** An implicit copy no worklist leads to is reported by the sweep. *)
Example run_blindSpot :
  callsOf (run false blindSpot) =
    [SearchObjects; SearchAddresses; EmitMissedCopyErrors; CleanupCopies] /\
  diagnosticsOf (run false blindSpot) = [missedCopy].
Proof. split; reflexivity. Qed.

Example run_suppressed :
  exists st,
    run false suppressed = Returned st /\
    diagnostics st = [] /\
    copiesOf (function st) = [] /\
    reportedChange st = true.
Proof. eexists. split; [reflexivity|]. repeat split. Qed.

Example run_usedMarked_debug :
  exists st,
    run true usedMarked = Returned st /\
    blocks (function st) = blocks (snd (cleanupNonCopyableCopiesAfterEmittingDiagnostic usedMarked)) /\
    dbgs st =
      [ markedButUsedMessage usedMarked;
        ("===> MoveOnly Checker. Visiting: closure" ++ newline)%string;
        emittingDiagnosticMessage false;
        emittingDiagnosticMessage false;
        noMoveIntroducersMessage ].
Proof. eexists. split; [reflexivity|]. split; reflexivity. Qed.

(** A function pass is handed definitions only; on a function without
    blocks the deletion path would read through the end iterator. *)
Example run_unusedShared_empty_body :
  run false (mkFunction rawModule [] [MOVEONLY_DELETE_IF_UNUSED]
               SILLinkage.Shared 0 false) = UndefinedBehavior.
Proof. reflexivity. Qed.

Lemma unused_marked_function_is_deleted_witness :
  exists st',
    run false unusedShared = Returned st' /\
    blocks (function st') =
      [unreachableBlock {| getArguments := [Object]; instructions := [] |} 7%N] /\
    getLinkage (function st') = SILLinkage.Private /\
    invalidated st' = Some InvalidationKind.FunctionBody /\
    calls st' = [] /\
    diagnostics st' = [].
Proof.
  destruct (@unused_marked_function_is_deleted collaborators false unusedShared
              {| getArguments := [Object];
                 instructions := [ inst (MarkUnresolvedNonCopyableValueInst Object) 7;
                                   inst CopyValueInst 8 ] |}
              [ {| getArguments := []; instructions := [ inst ReturnInst 9 ] |} ]
              (inst (MarkUnresolvedNonCopyableValueInst Object) 7)
              [ inst CopyValueInst 8 ]
              eq_refl eq_refl eq_refl eq_refl eq_refl eq_refl)
    as (st' & Hrun & Hb & Hs & _ & _ & Hi & Hc & Hd).
  exists st'. repeat split; auto.
Defined.

Lemma missed_copy_sweep_iff_nothing_emitted_witness :
  reachesNormalChecking blindSpot = true /\
  (called EmitMissedCopyErrors (callsOf (run false blindSpot)) = true <->
   emittedDiagnostic (diagnosticEmitter (fst (stateAfterPhases false blindSpot)))
   = false).
Proof.
  split; [reflexivity|].
  exact (proj1 (@missed_copy_sweep_iff_nothing_emitted collaborators false blindSpot eq_refl)).
Defined.

Lemma suppressed_function_is_only_cleaned_witness :
  exists st',
    run false suppressed = Returned st' /\
    calls st' = [CleanupCopies] /\
    diagnostics st' = [] /\
    reportedChange st' = true.
Proof.
  destruct (@suppressed_function_is_only_cleaned collaborators false suppressed
              eq_refl eq_refl eq_refl)
    as (st' & Hrun & Hc & Hd & _ & Hr & _).
  exists st'. repeat split; auto.
Defined.

Lemma search_diagnostic_flag_is_only_logged_witness :
  reachesNormalChecking plain = true /\
  quietOutcome (run true plain) = quietOutcome (run false plain).
Proof.
  split; [reflexivity|].
  exact (proj1 (@search_diagnostic_flag_is_only_logged collaborators plain eq_refl)).
Defined.

Lemma cleanup_runs_and_merges_its_flag_witness :
  reachesNormalChecking plain = true /\
  exists st',
    run false plain = Returned st' /\
    calls st' = calls (snd (stateAfterFallback false plain)) ++ [CleanupCopies] /\
    reportedChange st' = true.
Proof.
  split; [reflexivity|].
  destruct (@cleanup_runs_and_merges_its_flag collaborators false plain eq_refl)
    as (st' & Hrun & Hc & _ & _ & Hr & _).
  exists st'. repeat split; auto.
Defined.

Lemma marked_but_used_function_continues_witness :
  passesEntryGate usedMarked = true /\
  hasSemanticsAttr usedMarked MOVEONLY_DELETE_IF_UNUSED = true /\
  isUnused usedMarked = false /\
  function (stateAfterDeletionStep false usedMarked) = usedMarked /\
  run false usedMarked = normalChecking (stateAfterDeletionStep false usedMarked).
Proof.
  split; [reflexivity|]. split; [reflexivity|]. split; [reflexivity|].
  pose proof (@marked_but_used_function_continues collaborators false usedMarked
                eq_refl eq_refl eq_refl) as (Hf & _ & _ & _ & Hn & _).
  split; [exact Hf | exact (proj1 (Hn eq_refl))].
Defined.

(** C6 as the specification words it fails on a function that carries both
    attributes and still has a reference: the function is marked
    delete-if-unused and is not unused, yet no search and no engine is
    called on it, the cleanup alone is; the outcome is not that of normal
    checking from any pass state. *)
Lemma marked_used_suppressed_function_is_not_checked :
  passesEntryGate usedBoth = true /\
  hasSemanticsAttr usedBoth MOVEONLY_DELETE_IF_UNUSED = true /\
  isUnused usedBoth = false /\
  callsOf (run false usedBoth) = [CleanupCopies] /\
  diagnosticsOf (run false usedBoth) = [] /\
  (forall st, run false usedBoth <> normalChecking st).
Proof.
  repeat split; try reflexivity.
  intros st E.
  destruct (normalChecking_calls st) as (cs & Hc).
  rewrite <- E in Hc.
  assert (Hin : In SearchObjects (callsOf (run false usedBoth))).
  { rewrite Hc. apply in_or_app. right. left. reflexivity. }
  cbn in Hin. destruct Hin as [Hin | []]. discriminate.
Qed.

Lemma disabled_feature_is_noop_witness :
  exists st',
    run false featureOff = Returned st' /\
    function st' = featureOff /\
    diagnostics st' = [] /\
    calls st' = [] /\
    reportedChange st' = false /\
    dbgs st' = [].
Proof. exact (@disabled_feature_is_noop collaborators false featureOff eq_refl). Defined.

Lemma deserialized_function_is_noop_witness :
  exists st',
    run false deserialized = Returned st' /\
    function st' = deserialized /\
    diagnostics st' = [] /\
    calls st' = [] /\
    reportedChange st' = false /\
    dbgs st' = [].
Proof. exact (@deserialized_function_is_noop collaborators false deserialized eq_refl). Defined.

Lemma wrong_stage_is_fatal_witness :
  getStage (getModule canonical) <> SILStage.Raw /\
  exists st',
    run false canonical = AssertionFailure assertionMessage st' /\
    function st' = canonical /\
    diagnostics st' = [] /\
    calls st' = [] /\
    reportedChange st' = false.
Proof.
  assert (S : getStage (getModule canonical) <> SILStage.Raw)
    by (cbn; discriminate).
  split; [exact S|].
  exact (proj1 (@wrong_stage_is_fatal collaborators false canonical eq_refl eq_refl) S).
Defined.

Lemma deletion_test_precedes_suppression_witness :
  isUnused unusedBoth = true /\
  callsOf (run false unusedBoth) = [] /\
  (called CleanupCopies (callsOf (run false unusedBoth)) = true <->
   isUnused unusedBoth = false).
Proof.
  split; [reflexivity|].
  pose proof (@deletion_test_precedes_suppression collaborators false unusedBoth
                eq_refl eq_refl eq_refl) as (H1 & _ & H3).
  split; [exact (proj1 (H1 eq_refl)) | exact H3].
Defined.

End Runs.

(** ** The further properties on the functions of [Sample] and [Variants] *)

Section FurtherRuns.

Import Sample Variants.

Lemma deletion_keeps_the_rest_of_the_function_witness :
  exists st' bb,
    run false unusedShared = Returned st' /\
    getName (function st') = getName unusedShared /\
    getModule (function st') = getModule unusedShared /\
    getSemanticsAttrs (function st') = getSemanticsAttrs unusedShared /\
    getRefCount (function st') = getRefCount unusedShared /\
    wasDeserializedCanonical (function st') = wasDeserializedCanonical unusedShared /\
    blocks (function st') = [bb] /\
    getArguments bb = [Object] /\
    map getLoc (instructions bb) = [7%N].
Proof.
  exact (@deletion_keeps_the_rest_of_the_function collaborators false unusedShared
           {| getArguments := [Object];
              instructions := [ inst (MarkUnresolvedNonCopyableValueInst Object) 7;
                                inst CopyValueInst 8 ] |}
           [ {| getArguments := []; instructions := [ inst ReturnInst 9 ] |} ]
           (inst (MarkUnresolvedNonCopyableValueInst Object) 7)
           [ inst CopyValueInst 8 ]
           eq_refl eq_refl eq_refl eq_refl).
Defined.

Lemma deletion_is_idempotent_witness :
  exists st' st'',
    run false unusedShared = Returned st' /\
    run false (function st') = Returned st'' /\
    function st'' = function st' /\
    invalidated st'' = Some InvalidationKind.FunctionBody /\
    calls st'' = [].
Proof.
  exact (@deletion_is_idempotent collaborators false unusedShared
           {| getArguments := [Object];
              instructions := [ inst (MarkUnresolvedNonCopyableValueInst Object) 7;
                                inst CopyValueInst 8 ] |}
           [ {| getArguments := []; instructions := [ inst ReturnInst 9 ] |} ]
           (inst (MarkUnresolvedNonCopyableValueInst Object) 7)
           [ inst CopyValueInst 8 ]
           eq_refl eq_refl eq_refl eq_refl (fun _ => eq_refl)).
Defined.

Lemma normal_checking_is_the_composition_witness :
  reachesNormalChecking plain = true /\
  exists st',
    run false plain = Returned st' /\
    function st' = flowFunction (normalFlow plain) /\
    diagnostics st' = recorded (flowEmitter (normalFlow plain)) /\
    calls st' = flowCalls (normalFlow plain) /\
    reportedChange st' = flowChanged (normalFlow plain) /\
    invalidated st' =
      (if flowChanged (normalFlow plain)
       then Some InvalidationKind.Instructions else None).
Proof.
  split; [reflexivity|].
  exact (@normal_checking_is_the_composition collaborators false plain eq_refl).
Defined.

Lemma object_search_change_is_reported_witness :
  @reachesNormalChecking rewriting resolved = true /\
  exists st',
    @run rewriting false resolved = Returned st' /\
    reportedChange st' = true /\
    invalidated st' = Some InvalidationKind.Instructions.
Proof.
  split; [reflexivity|].
  exact (@object_search_change_is_reported rewriting false resolved
           eq_refl eq_refl).
Defined.

Lemma no_invalidation_without_a_change_witness :
  @neverChanges inert /\
  exists st',
    @run inert false plain = Returned st' /\
    invalidated st' = None /\
    reportedChange st' = false.
Proof.
  assert (N : @neverChanges inert) by (repeat split).
  split; [exact N|].
  eexists. split; [reflexivity|].
  exact (@no_invalidation_without_a_change inert false plain _ N eq_refl eq_refl).
Defined.

Lemma invalidation_kind_tells_the_path_witness :
  exists st',
    run false suppressed = Returned st' /\
    (invalidated st' = Some InvalidationKind.Instructions ->
     called CleanupCopies (calls st') = true).
Proof.
  eexists. split; [reflexivity|].
  exact (proj2 (@invalidation_kind_tells_the_path collaborators false suppressed
                  _ eq_refl)).
Defined.

Lemma no_diagnostic_without_normal_checking_witness :
  reachesNormalChecking suppressed = false /\
  diagnosticsOf (run false suppressed) = [].
Proof.
  split; [reflexivity|].
  exact (@no_diagnostic_without_normal_checking collaborators false suppressed
           eq_refl).
Defined.

Lemma silent_acceptance_has_been_swept_witness :
  @reachesNormalChecking inert plain = true /\
  diagnosticsOf (@run inert false plain) = [] /\
  called EmitMissedCopyErrors (callsOf (@run inert false plain)) = true.
Proof.
  split; [reflexivity|]. split; [reflexivity|].
  exact (@silent_acceptance_has_been_swept inert false plain eq_refl eq_refl).
Defined.

(** The pass reads through the end iterator of an empty entry block. *)
Example run_unusedEmptyEntry :
  run false unusedEmptyEntry = UndefinedBehavior.
Proof. reflexivity. Qed.

End FurtherRuns.
